(** * txtconv: encoding detection and conversion with a priority fallback list

    A shallow embedding of [src/txtconv.py]: the two functions that carry the
    decision logic, [detect_encoding] and [convert_encoding], and the format
    gate of [main].  Files are a finite map from paths to byte strings, the
    prints are recorded as messages in a trace, and Python exceptions are
    values of an error type that the [try]/[except] blocks match on.

    Two collaborators live outside the repository: [chardet.detect] and the
    codec registry of the Python runtime.  The engine is stated over both as
    section variables; the six codecs the program names itself (cp1250 under
    its two names, iso8859_2, utf-8, utf-8-sig, utf-16-le, utf-16-be) are also
    given concretely, from the tables of the runtime's [encodings] package. *)

From Stdlib Require Import String Ascii NArith QArith List Bool Lia.
From Stdlib.Strings Require Import Byte.
From stdpp Require Import base option list gmap strings.

Local Open Scope N_scope.

(** ** Python values and strings *)

Module Py.

(** The exception classes the program can meet.  [IOError] is an alias of
    [OSError], and [PermissionError] one of its subclasses. *)
Inductive exn :=
| OSError (msg : string)
| UnicodeDecodeError
| UnicodeEncodeError
| TypeError
| LookupError
| KeyError (key : string).

#[global] Instance exn_eq_dec : EqDecision exn.
Proof. solve_decision. Defined.

(** Values that [detect_encoding] returns in its pair. *)
Inductive pyval :=
| PyNone
| PyStr (s : string)
| PyInt (n : N)
| PyFloat (q : Q).

(** [bytes] objects and [str] objects (a sequence of code points). *)
Abbreviation bytes := (list byte).
Abbreviation text := (list N).

(** [str.lower] and [str.upper].  Labels, format names and paths are ASCII
    strings here, as the keys of the format table and the names of the
    candidates are; on ASCII the two methods change letters only.  On other
    characters [str.upper] does more (it turns U+0131 and U+017F into the
    letters I and S), so the statements about names that miss the format
    table ask for [isascii]. *)
Definition ascii_lower (c : ascii) : ascii :=
  let n := N_of_ascii c in
  if (65 <=? n) && (n <=? 90) then ascii_of_N (n + 32) else c.

Definition ascii_upper (c : ascii) : ascii :=
  let n := N_of_ascii c in
  if (97 <=? n) && (n <=? 122) then ascii_of_N (n - 32) else c.

Fixpoint str_map (f : ascii -> ascii) (s : string) : string :=
  match s with
  | EmptyString => EmptyString
  | String c r => String (f c) (str_map f r)
  end.

Definition lower : string -> string := str_map ascii_lower.
Definition upper : string -> string := str_map ascii_upper.

(** [str.isascii]. *)
Fixpoint isascii (s : string) : bool :=
  match s with
  | EmptyString => true
  | String c r => (N_of_ascii c <? 128) && isascii r
  end.

(** [sub in s] on strings. *)
Fixpoint str_in (sub s : string) : bool :=
  String.prefix sub s ||
  match s with
  | EmptyString => false
  | String _ r => str_in sub r
  end.

(** Truth value of an optional string: [None] and [''] are false. *)
Definition truthy (o : option string) : bool :=
  match o with
  | Some (String _ _) => true
  | _ => false
  end.

(** [x or default]. *)
Definition or_default (o : option string) (d : string) : string :=
  match o with
  | Some (String c r) => String c r
  | _ => d
  end.

(** A [dict] with string keys, and [dict.get(key, default)]: the default is
    returned only when the key is absent, a stored [None] is returned as it
    is. *)
Definition dict_get (d : gmap string pyval) (k : string) (default : pyval) : pyval :=
  match d !! k with
  | Some v => v
  | None => default
  end.

End Py.
Export Py.

(** ** The codecs the program names

    These model the runtime's codecs (not code of the repository): the two
    charmap codecs from their decoding tables, and the strict UTF-8 and UTF-16
    codecs. *)

Module Codecs.

Definition byte_of (n : N) : byte := default x00 (Byte.of_N n).

(** Upper halves (bytes 0x80 to 0xFF) of the decoding tables of
    [encodings/cp1250.py] and [encodings/iso8859_2.py]; [None] is an
    undefined byte.  The lower halves are the identity. *)
Definition cp1250_high : list (option N) :=
  [ Some 0x20AC; None; Some 0x201A; None; Some 0x201E; Some 0x2026; Some 0x2020; Some 0x2021;
    None; Some 0x2030; Some 0x0160; Some 0x2039; Some 0x015A; Some 0x0164; Some 0x017D; Some 0x0179;
    None; Some 0x2018; Some 0x2019; Some 0x201C; Some 0x201D; Some 0x2022; Some 0x2013; Some 0x2014;
    None; Some 0x2122; Some 0x0161; Some 0x203A; Some 0x015B; Some 0x0165; Some 0x017E; Some 0x017A;
    Some 0x00A0; Some 0x02C7; Some 0x02D8; Some 0x0141; Some 0x00A4; Some 0x0104; Some 0x00A6; Some 0x00A7;
    Some 0x00A8; Some 0x00A9; Some 0x015E; Some 0x00AB; Some 0x00AC; Some 0x00AD; Some 0x00AE; Some 0x017B;
    Some 0x00B0; Some 0x00B1; Some 0x02DB; Some 0x0142; Some 0x00B4; Some 0x00B5; Some 0x00B6; Some 0x00B7;
    Some 0x00B8; Some 0x0105; Some 0x015F; Some 0x00BB; Some 0x013D; Some 0x02DD; Some 0x013E; Some 0x017C;
    Some 0x0154; Some 0x00C1; Some 0x00C2; Some 0x0102; Some 0x00C4; Some 0x0139; Some 0x0106; Some 0x00C7;
    Some 0x010C; Some 0x00C9; Some 0x0118; Some 0x00CB; Some 0x011A; Some 0x00CD; Some 0x00CE; Some 0x010E;
    Some 0x0110; Some 0x0143; Some 0x0147; Some 0x00D3; Some 0x00D4; Some 0x0150; Some 0x00D6; Some 0x00D7;
    Some 0x0158; Some 0x016E; Some 0x00DA; Some 0x0170; Some 0x00DC; Some 0x00DD; Some 0x0162; Some 0x00DF;
    Some 0x0155; Some 0x00E1; Some 0x00E2; Some 0x0103; Some 0x00E4; Some 0x013A; Some 0x0107; Some 0x00E7;
    Some 0x010D; Some 0x00E9; Some 0x0119; Some 0x00EB; Some 0x011B; Some 0x00ED; Some 0x00EE; Some 0x010F;
    Some 0x0111; Some 0x0144; Some 0x0148; Some 0x00F3; Some 0x00F4; Some 0x0151; Some 0x00F6; Some 0x00F7;
    Some 0x0159; Some 0x016F; Some 0x00FA; Some 0x0171; Some 0x00FC; Some 0x00FD; Some 0x0163; Some 0x02D9 ].

Definition iso8859_2_high : list (option N) :=
  [ Some 0x0080; Some 0x0081; Some 0x0082; Some 0x0083; Some 0x0084; Some 0x0085; Some 0x0086; Some 0x0087;
    Some 0x0088; Some 0x0089; Some 0x008A; Some 0x008B; Some 0x008C; Some 0x008D; Some 0x008E; Some 0x008F;
    Some 0x0090; Some 0x0091; Some 0x0092; Some 0x0093; Some 0x0094; Some 0x0095; Some 0x0096; Some 0x0097;
    Some 0x0098; Some 0x0099; Some 0x009A; Some 0x009B; Some 0x009C; Some 0x009D; Some 0x009E; Some 0x009F;
    Some 0x00A0; Some 0x0104; Some 0x02D8; Some 0x0141; Some 0x00A4; Some 0x013D; Some 0x015A; Some 0x00A7;
    Some 0x00A8; Some 0x0160; Some 0x015E; Some 0x0164; Some 0x0179; Some 0x00AD; Some 0x017D; Some 0x017B;
    Some 0x00B0; Some 0x0105; Some 0x02DB; Some 0x0142; Some 0x00B4; Some 0x013E; Some 0x015B; Some 0x02C7;
    Some 0x00B8; Some 0x0161; Some 0x015F; Some 0x0165; Some 0x017A; Some 0x02DD; Some 0x017E; Some 0x017C;
    Some 0x0154; Some 0x00C1; Some 0x00C2; Some 0x0102; Some 0x00C4; Some 0x0139; Some 0x0106; Some 0x00C7;
    Some 0x010C; Some 0x00C9; Some 0x0118; Some 0x00CB; Some 0x011A; Some 0x00CD; Some 0x00CE; Some 0x010E;
    Some 0x0110; Some 0x0143; Some 0x0147; Some 0x00D3; Some 0x00D4; Some 0x0150; Some 0x00D6; Some 0x00D7;
    Some 0x0158; Some 0x016E; Some 0x00DA; Some 0x0170; Some 0x00DC; Some 0x00DD; Some 0x0162; Some 0x00DF;
    Some 0x0155; Some 0x00E1; Some 0x00E2; Some 0x0103; Some 0x00E4; Some 0x013A; Some 0x0107; Some 0x00E7;
    Some 0x010D; Some 0x00E9; Some 0x0119; Some 0x00EB; Some 0x011B; Some 0x00ED; Some 0x00EE; Some 0x010F;
    Some 0x0111; Some 0x0144; Some 0x0148; Some 0x00F3; Some 0x00F4; Some 0x0151; Some 0x00F6; Some 0x00F7;
    Some 0x0159; Some 0x016F; Some 0x00FA; Some 0x0171; Some 0x00FC; Some 0x00FD; Some 0x0163; Some 0x02D9 ].

(** *** Charmap codecs *)

Definition charmap_decode_byte (high : list (option N)) (b : byte) : option N :=
  let n := Byte.to_N b in
  if n <? 128 then Some n else mjoin (high !! N.to_nat (n - 128)).

Definition charmap_decode (high : list (option N)) (raw : bytes) : text + exn :=
  match mapM (charmap_decode_byte high) raw with
  | Some t => inl t
  | None => inr UnicodeDecodeError
  end.

(** The encoding map is the inverse of the decoding table. *)
Fixpoint index_of (c : N) (tbl : list (option N)) (i : N) : option N :=
  match tbl with
  | [] => None
  | e :: r => if decide (e = Some c) then Some i else index_of c r (i + 1)
  end.

Definition charmap_encode_char (high : list (option N)) (c : N) : option byte :=
  if c <? 128 then Some (byte_of c) else byte_of <$> index_of c high 128.

Definition charmap_encode (high : list (option N)) (t : text) : bytes + exn :=
  match mapM (charmap_encode_char high) t with
  | Some bs => inl bs
  | None => inr UnicodeEncodeError
  end.

(** *** UTF-8 *)

Definition is_cont (b : byte) : bool :=
  let n := Byte.to_N b in (0x80 <=? n) && (n <=? 0xBF).

Definition is_surrogate (c : N) : bool := (0xD800 <=? c) && (c <=? 0xDFFF).

Definition utf8_encode_char (c : N) : option bytes :=
  if c <? 0x80 then Some [byte_of c]
  else if c <? 0x800 then
    Some [byte_of (0xC0 + c / 64); byte_of (0x80 + c mod 64)]
  else if is_surrogate c then None
  else if c <? 0x10000 then
    Some [byte_of (0xE0 + c / 4096); byte_of (0x80 + (c / 64) mod 64);
          byte_of (0x80 + c mod 64)]
  else if c <? 0x110000 then
    Some [byte_of (0xF0 + c / 262144); byte_of (0x80 + (c / 4096) mod 64);
          byte_of (0x80 + (c / 64) mod 64); byte_of (0x80 + c mod 64)]
  else None.

Definition utf8_encode (t : text) : bytes + exn :=
  match mapM utf8_encode_char t with
  | Some bss => inl (concat bss)
  | None => inr UnicodeEncodeError
  end.

Definition cont_bits (b : byte) : N := Byte.to_N b - 0x80.

(** Strict decoding: no overlong forms, no surrogates, nothing above
    U+10FFFF, no truncated sequence. *)
Fixpoint utf8_decode_opt (raw : bytes) : option text :=
  match raw with
  | [] => Some []
  | b0 :: r0 =>
    let n0 := Byte.to_N b0 in
    if n0 <? 0x80 then cons n0 <$> utf8_decode_opt r0
    else if (0xC2 <=? n0) && (n0 <=? 0xDF) then
      match r0 with
      | b1 :: r1 =>
        if is_cont b1
        then cons ((n0 - 0xC0) * 64 + cont_bits b1) <$> utf8_decode_opt r1
        else None
      | _ => None
      end
    else if (0xE0 <=? n0) && (n0 <=? 0xEF) then
      match r0 with
      | b1 :: b2 :: r2 =>
        let c := (n0 - 0xE0) * 4096 + cont_bits b1 * 64 + cont_bits b2 in
        if is_cont b1 && is_cont b2 && (0x800 <=? c) && negb (is_surrogate c)
        then cons c <$> utf8_decode_opt r2
        else None
      | _ => None
      end
    else if (0xF0 <=? n0) && (n0 <=? 0xF4) then
      match r0 with
      | b1 :: b2 :: b3 :: r3 =>
        let c := (n0 - 0xF0) * 262144 + cont_bits b1 * 4096
                 + cont_bits b2 * 64 + cont_bits b3 in
        if is_cont b1 && is_cont b2 && is_cont b3
           && (0x10000 <=? c) && (c <? 0x110000)
        then cons c <$> utf8_decode_opt r3
        else None
      | _ => None
      end
    else None
  end.

Definition utf8_decode (raw : bytes) : text + exn :=
  match utf8_decode_opt raw with
  | Some t => inl t
  | None => inr UnicodeDecodeError
  end.

(** utf-8-sig: the encoder writes the signature EF BB BF first, the decoder
    drops one if the data starts with it. *)
Definition BOM_UTF8 : bytes := [xef; xbb; xbf].

Definition utf8_sig_encode (t : text) : bytes + exn :=
  match utf8_encode t with
  | inl bs => inl (BOM_UTF8 ++ bs)
  | inr e => inr e
  end.

Definition utf8_sig_decode (raw : bytes) : text + exn :=
  match raw with
  | xef :: xbb :: xbf :: r => utf8_decode r
  | _ => utf8_decode raw
  end.

(** *** UTF-16, little and big endian, no byte order mark *)

Definition utf16_units (c : N) : option (list N) :=
  if is_surrogate c then None
  else if c <? 0x10000 then Some [c]
  else if c <? 0x110000 then
    Some [0xD800 + (c - 0x10000) / 1024; 0xDC00 + (c - 0x10000) mod 1024]
  else None.

Definition unit_bytes (big_endian : bool) (u : N) : bytes :=
  if big_endian then [byte_of (u / 256); byte_of (u mod 256)]
  else [byte_of (u mod 256); byte_of (u / 256)].

Definition utf16_encode (big_endian : bool) (t : text) : bytes + exn :=
  match mapM utf16_units t with
  | Some uss => inl (concat (map (unit_bytes big_endian) (concat uss)))
  | None => inr UnicodeEncodeError
  end.

Fixpoint utf16_split (big_endian : bool) (raw : bytes) : option (list N) :=
  match raw with
  | [] => Some []
  | b0 :: b1 :: r =>
    let u := if big_endian then Byte.to_N b0 * 256 + Byte.to_N b1
             else Byte.to_N b1 * 256 + Byte.to_N b0 in
    cons u <$> utf16_split big_endian r
  | _ => None
  end.

Fixpoint utf16_join (us : list N) : option text :=
  match us with
  | [] => Some []
  | u :: r =>
    if (0xD800 <=? u) && (u <=? 0xDBFF) then
      match r with
      | v :: r' =>
        if (0xDC00 <=? v) && (v <=? 0xDFFF)
        then cons (0x10000 + (u - 0xD800) * 1024 + (v - 0xDC00)) <$> utf16_join r'
        else None
      | [] => None
      end
    else if (0xDC00 <=? u) && (u <=? 0xDFFF) then None
    else cons u <$> utf16_join r
  end.

Definition utf16_decode (big_endian : bool) (raw : bytes) : text + exn :=
  match utf16_split big_endian raw ≫= utf16_join with
  | Some t => inl t
  | None => inr UnicodeDecodeError
  end.

(** *** The registry *)

Inductive codec := Cp1250 | Iso8859_2 | Utf8 | Utf8Sig | Utf16LE | Utf16BE.

(** The names under which the program asks for a codec: the values of the
    format table, and the two candidates of the priority list. *)
Definition codec_of_name (name : string) : option codec :=
  if String.eqb name "windows-1250" then Some Cp1250
  else if String.eqb name "cp1250" then Some Cp1250
  else if String.eqb name "iso8859_2" then Some Iso8859_2
  else if String.eqb name "utf-8" then Some Utf8
  else if String.eqb name "utf-8-sig" then Some Utf8Sig
  else if String.eqb name "utf-16-le" then Some Utf16LE
  else if String.eqb name "utf-16-be" then Some Utf16BE
  else None.

Definition codec_decode (c : codec) : bytes -> text + exn :=
  match c with
  | Cp1250 => charmap_decode cp1250_high
  | Iso8859_2 => charmap_decode iso8859_2_high
  | Utf8 => utf8_decode
  | Utf8Sig => utf8_sig_decode
  | Utf16LE => utf16_decode false
  | Utf16BE => utf16_decode true
  end.

Definition codec_encode (c : codec) : text -> bytes + exn :=
  match c with
  | Cp1250 => charmap_encode cp1250_high
  | Iso8859_2 => charmap_encode iso8859_2_high
  | Utf8 => utf8_encode
  | Utf8Sig => utf8_sig_encode
  | Utf16LE => utf16_encode false
  | Utf16BE => utf16_encode true
  end.

(** [raw.decode(name)] and the encoder behind [open(..., encoding=name)].
    A name outside the six above is left to [other], the rest of the
    runtime's registry (which raises [LookupError] for a name it does not
    know). *)
Definition py_decode (other : string -> bytes -> text + exn)
    (name : string) (raw : bytes) : text + exn :=
  match codec_of_name name with
  | Some c => codec_decode c raw
  | None => other name raw
  end.

Definition py_encode (name : string) (t : text) : bytes + exn :=
  match codec_of_name name with
  | Some c => codec_encode c t
  | None => inr LookupError
  end.

End Codecs.

(** ** Files, diagnostics and outcomes *)

(** An entry of the file system that [open] refuses in both modes: a
    directory, or a file without access, with the size [os.stat] reports. *)
Inductive entry :=
| Directory (st_size : nat)
| NoAccess (st_size : nat).

Definition st_size_of (e : entry) : nat :=
  match e with
  | Directory n | NoAccess n => n
  end.

(** The file system: [files] holds the regular files that can be read, with
    their contents; [closed] the other entries that exist; [refused] the
    further paths that [open(path, 'w')] refuses (a read-only file, a path
    in a missing or read-only directory).  A path stands for itself: two
    names of one file are two keys. *)
Record world := World {
  files : gmap string bytes;
  refused : gset string;
  closed : gmap string entry
}.

(** The paths that cannot be opened for writing. *)
Definition locked (w : world) : gset string := refused w ∪ dom (closed w).

Definition strerror (w : world) (path : string) (otherwise : string) : string :=
  match closed w !! path with
  | Some (Directory _) => "[Errno 21] Is a directory: '"
  | Some (NoAccess _) => "[Errno 13] Permission denied: '"
  | None => otherwise
  end +:+ path +:+ "'".

(** [open(path, 'rb')] followed by [read()]. *)
Definition open_read (w : world) (path : string) : bytes + exn :=
  match files w !! path with
  | Some data => inl data
  | None => inr (OSError (strerror w path "[Errno 2] No such file or directory: '"))
  end.

(** [open(path, 'w')]: the file is created, or truncated if it exists. *)
Definition open_write (w : world) (path : string) : world + exn :=
  if decide (path ∈ locked w)
  then inr (OSError (strerror w path "[Errno 13] Permission denied: '"))
  else inl (World (<[path := []]> (files w)) (refused w) (closed w)).

(** The bytes that reach an open file when it is closed. *)
Definition write_bytes (w : world) (path : string) (data : bytes) : world :=
  World (<[path := data]> (files w)) (refused w) (closed w).

(** [os.stat(path).st_size], or [None] when [os.stat] raises [OSError]. *)
Definition os_stat (w : world) (path : string) : option nat :=
  match files w !! path with
  | Some data => Some (length data)
  | None => st_size_of <$> closed w !! path
  end.

(** What [chardet.detect] returns: a dict with the keys ['encoding'] (a
    label or [None]), ['confidence'] and ['language']. *)
Record detection := Detection {
  det_encoding : option string;
  det_confidence : Q
}.

Definition detection_dict (d : detection) : gmap string pyval :=
  {[ "encoding" := match det_encoding d with Some s => PyStr s | None => PyNone end;
     "confidence" := PyFloat (det_confidence d);
     "language" := PyNone ]}.

Definition as_str (v : pyval) : option string :=
  match v with
  | PyStr s => Some s
  | _ => None
  end.

(** The lines the program prints, by the statement that prints them. *)
Inductive message :=
| MsgCannotRead (file_in : string) (e : exn)
| MsgCreatedEmpty (file_out format_upper : string)
| MsgDetected (label : string) (confidence : pyval)
| MsgDecodedUnicode (enc : string)
| MsgFallback (enc : string)
| MsgDecoded (enc : string)
| MsgAllFailed
| MsgSaved (file_out format_upper : string)
| MsgWriteError (file_out : string) (e : exn).

(** What a call does, in order: every attempt to open a file, every call of
    the detector, every decode attempt, every line printed. *)
Inductive event :=
| EvOpenRead (path : string)
| EvOpenWrite (path : string)
| EvWrite (path : string) (data : bytes)
| EvDetect
| EvDecode (enc : string)
| EvPrint (m : message).

(** How a call of [convert_encoding] ends: at one of its [return]s, after
    its last statement ([Saved] and [WriteError]), or with an exception that
    no handler of the function catches. *)
Inductive outcome :=
| Unreadable
| EmptyCreated
| AllDecodeFailed
| Saved
| WriteError (e : exn)
| Raised (e : exn).

Record result := Result {
  res_outcome : outcome;
  res_world : world;
  res_trace : list event
}.

(** The encodings a trace tried to decode with, and the files it opened. *)
Definition decode_attempts (tr : list event) : list string :=
  omap (fun ev => match ev with EvDecode enc => Some enc | _ => None end) tr.

Definition file_accesses (tr : list event) : list string :=
  omap (fun ev => match ev with
                  | EvOpenRead p | EvOpenWrite p | EvWrite p _ => Some p
                  | _ => None
                  end) tr.

Definition SUPPORTED_FORMATS : gmap string string :=
  list_to_map
    [ ("UTF8", "utf-8"); ("UTF8WBOM", "utf-8"); ("UTF8BOM", "utf-8-sig");
      ("ANSI", "cp1250"); ("ISO8859_2", "iso8859_2");
      ("UTF16LE", "utf-16-le"); ("UTF16BE", "utf-16-be") ]%string.

(** ** The engine *)

Section Engine.

Variable chardet_detect : bytes -> detection.
Variable decode : string -> bytes -> text + exn.
Variable encode : string -> text -> bytes + exn.

(** [detect_encoding], lines 78 to 86: the pair it returns, or the
    exception that its handler for [IOError] and [PermissionError] does not
    catch. *)
Definition detect_encoding (w : world) (filename : string) : pyval * pyval + exn :=
  match open_read w filename with
  | inr (OSError msg) => inl (PyStr ("Error: " +:+ msg), PyInt 0)
  | inr e => inr e
  | inl [] => inl (PyStr "empty", PyFloat 1)
  | inl data =>
    let result := detection_dict (chardet_detect data) in
    inl (dict_get result "encoding" (PyStr "unknown"),
         dict_get result "confidence" (PyInt 0))
  end.

(** Lines 114 to 120: the priority list, and chardet's suggestion after it
    when there is one and it is not already a member. *)
Definition encodings_to_try (detected_encoding : option string) : list string :=
  let priority := ["windows-1250"; "iso8859_2"]%string in
  match detected_encoding with
  | Some enc =>
    if truthy detected_encoding && negb (bool_decide (enc ∈ priority))
    then priority ++ [enc]
    else priority
  | None => priority
  end.

(** Lines 123 to 128: a detected UTF format is tried first.  Only
    [UnicodeDecodeError] is caught. *)
Definition trust_utf (detected_encoding : option string) (raw_data : bytes)
  : list event * (exn + option text) :=
  match detected_encoding with
  | Some enc =>
    if truthy detected_encoding && str_in "utf" (lower enc) then
      match decode enc raw_data with
      | inl t => ([EvDecode enc; EvPrint (MsgDecodedUnicode enc)], inr (Some t))
      | inr UnicodeDecodeError => ([EvDecode enc], inr None)
      | inr e => ([EvDecode enc], inl e)
      end
    else ([], inr None)
  | None => ([], inr None)
  end.

(** Lines 131 to 140: the loop over [encodings_to_try].  [UnicodeDecodeError]
    and [TypeError] go on to the next candidate, a success breaks out, any
    other exception leaves the function. *)
Fixpoint decode_loop (detected_encoding : option string) (raw_data : bytes)
    (encs : list string) : list event * (exn + option text) :=
  match encs with
  | [] => ([], inr None)
  | enc :: rest =>
    match decode enc raw_data with
    | inl t =>
      ([EvDecode enc;
        EvPrint (if bool_decide (Some enc ≠ detected_encoding)
                 then MsgFallback enc else MsgDecoded enc)],
       inr (Some t))
    | inr UnicodeDecodeError | inr TypeError =>
      let '(tr, r) := decode_loop detected_encoding raw_data rest in
      (EvDecode enc :: tr, r)
    | inr e => ([EvDecode enc], inl e)
    end
  end.

(** Lines 146 to 151: the write, inside [try ... except Exception].  The
    table lookup is an argument of [open], so a missing key raises before
    the file is opened; the text layer encodes the whole string when
    [write] is called, so an encoding error leaves the opened file empty. *)
Definition write_output (w : world) (file_out target_format_upper : string)
    (t : text) : result :=
  match SUPPORTED_FORMATS !! target_format_upper with
  | None =>
    let e := KeyError target_format_upper in
    Result (WriteError e) w [EvPrint (MsgWriteError file_out e)]
  | Some codec =>
    match open_write w file_out with
    | inr e =>
      Result (WriteError e) w [EvOpenWrite file_out; EvPrint (MsgWriteError file_out e)]
    | inl w1 =>
      match encode codec t with
      | inr e =>
        Result (WriteError e) w1
               [EvOpenWrite file_out; EvPrint (MsgWriteError file_out e)]
      | inl data =>
        Result Saved (write_bytes w1 file_out data)
               [EvOpenWrite file_out; EvWrite file_out data;
                EvPrint (MsgSaved file_out target_format_upper)]
      end
    end
  end.

(** Lines 122 to 140 together: the value of [text] after the two decoding
    steps, or the exception that left them. *)
Definition decode_stage (detected_encoding : option string) (raw_data : bytes)
  : list event * (exn + option text) :=
  match trust_utf detected_encoding raw_data with
  | (tr1, inr None) =>
    let '(tr2, r) :=
      decode_loop detected_encoding raw_data (encodings_to_try detected_encoding) in
    (tr1 ++ tr2, r)
  | decoded_or_raised => decoded_or_raised
  end.

Definition prepend (tr : list event) (r : result) : result :=
  Result (res_outcome r) (res_world r) (tr ++ res_trace r).

(** [convert_encoding], lines 88 to 151. *)
Definition convert_encoding (w : world) (file_in file_out target_format : string)
  : result :=
  let target_format_upper := upper target_format in
  match open_read w file_in with
  | inr (OSError msg) =>
    Result Unreadable w
           [EvOpenRead file_in; EvPrint (MsgCannotRead file_in (OSError msg))]
  | inr e => Result (Raised e) w [EvOpenRead file_in]
  | inl [] =>
    match open_write w file_out with
    | inr e => Result (Raised e) w [EvOpenRead file_in; EvOpenWrite file_out]
    | inl w1 =>
      Result EmptyCreated w1
             [EvOpenRead file_in; EvOpenWrite file_out;
              EvPrint (MsgCreatedEmpty file_out target_format_upper)]
    end
  | inl raw_data =>
    let detection := detection_dict (chardet_detect raw_data) in
    let detected_encoding := as_str (dict_get detection "encoding" PyNone) in
    let confidence := dict_get detection "confidence" PyNone in
    let tr0 :=
      [EvOpenRead file_in; EvDetect;
       EvPrint (MsgDetected (or_default detected_encoding "unknown") confidence)] in
    match decode_stage detected_encoding raw_data with
    | (tr, inl e) => Result (Raised e) w (tr0 ++ tr)
    | (tr, inr None) =>
      Result AllDecodeFailed w (tr0 ++ tr ++ [EvPrint MsgAllFailed])
    | (tr, inr (Some t)) =>
      prepend (tr0 ++ tr) (write_output w file_out target_format_upper t)
    end
  end.

End Engine.

(** ** The format gate of [main]

    [main] checks the format before it does anything with a file (lines 329
    to 336); what follows dispatches on the other options.  The actions name
    the call that [main] makes. *)

Record args := Args {
  input_file : option string;
  output_file : option string;
  format : option string;
  ext : option string;
  suffix : option string;
  dir : string;
  recursive : bool;
  show_ext : option string;
  stat : bool;
  rem : bool;
  color : bool;
  overwrite : bool;
  help : bool
}.

Inductive action :=
| ShowDetailedHelp
| ExitInvalidFormat (fmt : string)
| ShowFilesInfo (ext dir : string) (recursive stat rem : bool)
| AllRequiresFormat
| ProcessAll (ext fmt : string) (suffix : option string) (dir : string)
             (recursive overwrite : bool)
| ConvertTo (file_in file_out fmt : string)
| ConvertAutoNamed (file_in fmt : string) (overwrite : bool)
| ShowDetected (file_in : string)
| BadCombination
| NoAction.

Definition arg (o : option string) : string := default EmptyString o.

Definition main (a : args) : action :=
  if help a then ShowDetailedHelp
  else if truthy (format a)
          && bool_decide (SUPPORTED_FORMATS !! upper (arg (format a)) = None)
  then ExitInvalidFormat (arg (format a))
  else if truthy (show_ext a)
  then ShowFilesInfo (arg (show_ext a)) (dir a) (recursive a) (stat a) (rem a)
  else if truthy (ext a) then
    if negb (truthy (format a)) then AllRequiresFormat
    else ProcessAll (arg (ext a)) (arg (format a)) (suffix a) (dir a)
                    (recursive a) (overwrite a)
  else if truthy (input_file a) then
    if truthy (output_file a) && truthy (format a)
    then ConvertTo (arg (input_file a)) (arg (output_file a)) (arg (format a))
    else if truthy (format a) && negb (truthy (output_file a))
    then ConvertAutoNamed (arg (input_file a)) (arg (format a)) (overwrite a)
    else if negb (truthy (output_file a)) then ShowDetected (arg (input_file a))
    else BadCombination
  else NoAction.

(** ** Sample inputs *)

(** Text made of ASCII characters and the Polish letters with diacritics. *)
Definition polish_diacritics : list N :=
  [ 0x0105; 0x0107; 0x0119; 0x0142; 0x0144; 0x00F3; 0x015B; 0x017A; 0x017C;
    0x0104; 0x0106; 0x0118; 0x0141; 0x0143; 0x00D3; 0x015A; 0x0179; 0x017B ].

Definition polish_char (c : N) : Prop := c < 128 ∨ c ∈ polish_diacritics.

Definition polish_text (t : text) : Prop := Forall polish_char t.

Definition ascii_bytes (raw : bytes) : Prop :=
  Forall (fun b => Byte.to_N b < 128) raw.

(** The bytes [b"Zaj\xb1\xe6"], the text "Zająć", and the text that cp1250
    reads in those bytes (U+00B1 is the plus-minus sign). *)
Definition zajac_raw : bytes := [x5a; x61; x6a; xb1; xe6].
Definition zajac_text : text := [0x5A; 0x61; 0x6A; 0x0105; 0x0107].
Definition zajac_cp1250 : text := [0x5A; 0x61; 0x6A; 0x00B1; 0x0107].

(** A file system with one file and nothing locked. *)
Definition one_file (path : string) (data : bytes) : world :=
  World {[ path := data ]} ∅ ∅.

(** Detectors with a fixed answer, a registry that knows the six codecs
    only, and one in which every name is strict UTF-8. *)
Definition detects (label : option string) (confidence : Q) : bytes -> detection :=
  fun _ => Detection label confidence.

Definition no_other : string -> bytes -> text + exn :=
  fun _ _ => inr LookupError.

Definition all_utf8 : string -> bytes -> text + exn :=
  fun _ => Codecs.utf8_decode.

Definition label_has_utf (label : option string) : bool :=
  match label with
  | Some enc => str_in "utf" (lower enc)
  | None => false
  end.

(** The decode attempt of a candidate failed the way the handlers expect. *)
Definition decode_fails (decode : string -> bytes -> text + exn)
    (raw : bytes) (enc : string) : Prop :=
  decode enc raw = inr UnicodeDecodeError.

Definition skipped (decode : string -> bytes -> text + exn)
    (raw : bytes) (enc : string) : Prop :=
  decode enc raw = inr UnicodeDecodeError ∨ decode enc raw = inr TypeError.

(** How many of the attempted encodings decode the data. *)
Definition decodes (decode : string -> bytes -> text + exn)
    (raw : bytes) (enc : string) : bool :=
  match decode enc raw with
  | inl _ => true
  | inr _ => false
  end.

Definition successes (decode : string -> bytes -> text + exn)
    (raw : bytes) (attempts : list string) : nat :=
  length (List.filter (decodes decode raw) attempts).

(** The first three events of a run on a non-empty file. *)
Definition preamble (chardet_detect : bytes -> detection)
    (file_in : string) (raw : bytes) : list event :=
  [EvOpenRead file_in; EvDetect;
   EvPrint (MsgDetected (or_default (det_encoding (chardet_detect raw)) "unknown")
                        (PyFloat (det_confidence (chardet_detect raw))))].

(** What the run [r] has done with the text [t] that its decoding steps
    gave it, by what lines 146 to 151 find: a format that is not a key of
    the table, an output that cannot be opened, a text that the codec cannot
    encode, or none of these, when the bytes of the text are in the output
    file. *)
Definition text_is_written (encode : string -> text -> bytes + exn)
    (w : world) (file_out target_format : string) (t : text) (r : result) : Prop :=
  match SUPPORTED_FORMATS !! upper target_format with
  | None =>
    res_outcome r = WriteError (KeyError (upper target_format)) ∧ res_world r = w
  | Some codec =>
    if decide (file_out ∈ locked w)
    then (∃ msg, res_outcome r = WriteError (OSError msg)) ∧ res_world r = w
    else
      match encode codec t with
      | inl data =>
        res_outcome r = Saved ∧
        files (res_world r) = <[file_out := data]> (files w) ∧
        EvWrite file_out data ∈ res_trace r
      | inr e =>
        res_outcome r = WriteError e ∧
        files (res_world r) = <[file_out := []]> (files w) ∧
        ∀ data, EvWrite file_out data ∉ res_trace r
      end
  end.

(** ** Strings and paths of the runtime

    The string methods and the [os.path] functions that the batch and listing
    code call, for Latin-1 strings and POSIX paths. *)

Module OsPath.

(** [p[:n]] and [p[n:]]. *)
Fixpoint str_take (n : nat) (s : string) : string :=
  match n, s with
  | S k, String c r => String c (str_take k r)
  | _, _ => EmptyString
  end.

Fixpoint str_drop (n : nat) (s : string) : string :=
  match n, s with
  | S k, String _ r => str_drop k r
  | _, _ => s
  end.

(** [p.rfind(c)]: the index of the last occurrence, -1 when there is
    none. *)
Fixpoint rfind_from (c : ascii) (s : string) (i last : Z) : Z :=
  match s with
  | EmptyString => last
  | String d r => rfind_from c r (i + 1)%Z (if Ascii.eqb d c then i else last)
  end.

Definition rfind (c : ascii) (s : string) : Z := rfind_from c s 0%Z (-1)%Z.

(** [s.lstrip(chars)] and [s.rstrip(chars)], the characters given by a
    test. *)
Fixpoint lstrip_by (f : ascii -> bool) (s : string) : string :=
  match s with
  | EmptyString => EmptyString
  | String c r => if f c then lstrip_by f r else s
  end.

Fixpoint rstrip_by (f : ascii -> bool) (s : string) : string :=
  match s with
  | EmptyString => EmptyString
  | String c r =>
    match rstrip_by f r with
    | EmptyString => if f c then EmptyString else String c EmptyString
    | r' => String c r'
    end
  end.

(** [str.isspace] on the characters below 256. *)
Definition is_space (c : ascii) : bool :=
  let n := N_of_ascii c in
  ((9 <=? n) && (n <=? 13)) || ((28 <=? n) && (n <=? 32))
  || (n =? 0x85) || (n =? 0xA0).

(** [s.strip()]. *)
Definition strip (s : string) : string :=
  rstrip_by is_space (lstrip_by is_space s).

(** The loop of [genericpath._splitext] that skips the leading dots of the
    file name: whether one of the [steps] characters from [filenameIndex] on
    is not a dot. *)
Fixpoint has_non_dot (p : string) (filenameIndex steps : nat) : bool :=
  match steps with
  | O => false
  | S k =>
    match String.get filenameIndex p with
    | Some "."%char => has_non_dot p (S filenameIndex) k
    | _ => true
    end
  end.

(** [os.path.splitext] of [posixpath]. *)
Definition splitext (p : string) : string * string :=
  let sepIndex := rfind "/" p in
  let dotIndex := rfind "." p in
  if (sepIndex <? dotIndex)%Z
     && has_non_dot p (Z.to_nat (sepIndex + 1)) (Z.to_nat (dotIndex - (sepIndex + 1)))
  then (str_take (Z.to_nat dotIndex) p, str_drop (Z.to_nat dotIndex) p)
  else (p, EmptyString).

Definition all_chars (f : ascii -> bool) (s : string) : bool :=
  match lstrip_by f s with
  | EmptyString => true
  | _ => false
  end.

(** [os.path.dirname] and [os.path.basename] of [posixpath]. *)
Definition dirname (p : string) : string :=
  let i := Z.to_nat (rfind "/" p + 1) in
  let head := str_take i p in
  if negb (String.eqb head EmptyString) && negb (all_chars (Ascii.eqb "/") head)
  then rstrip_by (Ascii.eqb "/") head
  else head.

Definition basename (p : string) : string :=
  str_drop (Z.to_nat (rfind "/" p + 1)) p.

End OsPath.

(** ** Batch processing and the command line *)

(** What [input()] gives: the line typed, or one of the two exceptions it
    can end with. *)
Inductive input_result :=
| Typed (line : string)
| KeyboardInterrupt
| EOFError.

(** An exception that leaves [process_all] or [main]: one that left
    [convert_encoding], or the [EOFError] of a prompt. *)
Inductive escaped :=
| FromConvert (e : exn)
| FromInput.

(** [os.path.exists]: whether [os.stat] succeeds. *)
Definition path_exists (w : world) (path : string) : bool :=
  bool_decide (is_Some (os_stat w path)).

(** The name that [process_all] (lines 173 and 174) and [main] (lines 359
    and 360) give to the output of a file. *)
Definition new_name (suffix fname : string) : string :=
  let '(base, extension) := OsPath.splitext fname in
  base +:+ "_" +:+ suffix +:+ extension.

(** The two questions asked before an existing output is overwritten. *)
Definition batch_prompt : string :=
  "Overwrite all conflicting files and continue batch processing? [y/N]: ".

Definition single_prompt (auto_output : string) : string :=
  "Output file '" +:+ auto_output +:+ "' already exists. Overwrite? [y/N]: ".

(** [response != 'y'] for the stripped, lower-cased answer. *)
Definition declined (line : string) : bool :=
  negb (String.eqb (lower (OsPath.strip line)) "y").

(** How a call of [process_all] ends. *)
Inductive batch_outcome :=
| NoFilesFound
| AbortedByUser
| AbortedByInterrupt
| BatchComplete
| BatchRaised (e : escaped).

(** [batch_prompted] holds the list of existing output files that was
    printed when the question was asked; [batch_runs] the calls of
    [convert_encoding] that were made, in order. *)
Record batch_result := BatchResult {
  batch_outcome_of : batch_outcome;
  batch_world : world;
  batch_prompted : option (list string);
  batch_runs : list result
}.

Section Batch.

Variable chardet_detect : bytes -> detection.
Variable decode : string -> bytes -> text + exn.
Variable encode : string -> text -> bytes + exn.

(** [get_files]: the sorted result of [glob.glob] for the extension. *)
Variable get_files : world -> string -> string -> bool -> list string.

(** The answer to a prompt. *)
Variable user_input : string -> input_result.

(** Lines 196 and 197: one call of [convert_encoding] per pair, each on the
    file system the previous one left; an exception ends the loop. *)
Fixpoint convert_all (w : world) (output_map : list (string * string))
    (target_format : string) : list result * world * option exn :=
  match output_map with
  | [] => ([], w, None)
  | (fname_in, fname_out) :: rest =>
    let r := convert_encoding chardet_detect decode encode
                              w fname_in fname_out target_format in
    match res_outcome r with
    | Raised e => ([r], res_world r, Some e)
    | _ =>
      let '(rs, w', e) := convert_all (res_world r) rest target_format in
      (r :: rs, w', e)
    end
  end.

Definition batch_of (prompted : option (list string))
    (looped : list result * world * option exn) : batch_result :=
  match looped with
  | (rs, w', Some e) => BatchResult (BatchRaised (FromConvert e)) w' prompted rs
  | (rs, w', None) => BatchResult BatchComplete w' prompted rs
  end.

(** [process_all], lines 159 to 199. *)
Definition process_all (w : world) (ext target_format : string)
    (suffix : option string) (base_dir : string) (recursive overwrite : bool)
  : batch_result :=
  let ext := OsPath.lstrip_by (Ascii.eqb ".") ext in
  let suffix := or_default suffix (upper target_format) in
  let files_found := get_files w ext base_dir recursive in
  match files_found with
  | [] => BatchResult NoFilesFound w None []
  | _ =>
    let output_map := map (fun fname => (fname, new_name suffix fname)) files_found in
    let existing_files := List.filter (path_exists w) (map snd output_map) in
    match existing_files with
    | _ :: _ =>
      if negb overwrite then
        match user_input batch_prompt with
        | Typed line =>
          if declined line
          then BatchResult AbortedByUser w (Some existing_files) []
          else batch_of (Some existing_files) (convert_all w output_map target_format)
        | KeyboardInterrupt =>
          BatchResult AbortedByInterrupt w (Some existing_files) []
        | EOFError =>
          BatchResult (BatchRaised FromInput) w (Some existing_files) []
        end
      else batch_of None (convert_all w output_map target_format)
    | [] => batch_of None (convert_all w output_map target_format)
    end
  end.

(** What a run of [main] leaves: the file system, whether a question was
    asked, the calls of [convert_encoding] that were made, and the exception
    that ended it if one did. *)
Record main_result := MainResult {
  main_world : world;
  main_prompted : bool;
  main_runs : list result;
  main_escaped : option escaped
}.

Definition of_run (prompted : bool) (r : result) : main_result :=
  MainResult (res_world r) prompted [r]
             match res_outcome r with
             | Raised e => Some (FromConvert e)
             | _ => None
             end.

(** The call that each branch of [main] makes (lines 329 to 384).  The
    listing and the detection read files only, the help and the error
    branches touch none. *)
Definition run_action (w : world) (act : action) : main_result :=
  match act with
  | ConvertTo file_in file_out fmt =>
    of_run false (convert_encoding chardet_detect decode encode w file_in file_out fmt)
  | ConvertAutoNamed file_in fmt overwrite =>
    let auto_output := new_name (upper fmt) file_in in
    let go prompted :=
      of_run prompted
             (convert_encoding chardet_detect decode encode w file_in auto_output fmt) in
    if path_exists w auto_output && negb overwrite then
      match user_input (single_prompt auto_output) with
      | Typed line =>
        if declined line
        then MainResult w true [] None
        else go true
      | KeyboardInterrupt => MainResult w true [] None
      | EOFError => MainResult w true [] (Some FromInput)
      end
    else go false
  | ProcessAll e fmt sfx d rec overwrite =>
    let b := process_all w e fmt sfx d rec overwrite in
    MainResult (batch_world b)
               (bool_decide (is_Some (batch_prompted b)))
               (batch_runs b)
               match batch_outcome_of b with
               | BatchRaised e => Some e
               | _ => None
               end
  | _ => MainResult w false [] None
  end.

Definition run_main (w : world) (a : args) : main_result := run_action w (main a).

End Batch.

(** The bytes to which cp1250 gives no character. *)
Definition cp1250_undefined : list byte := [x81; x83; x88; x90; x98].

(** A detector that answers "utf-8" for data with a byte above 127 that is
    valid UTF-8, and nothing otherwise. *)
Definition detects_utf8 : bytes -> detection :=
  fun data =>
    match Codecs.utf8_decode data with
    | inl _ =>
      if forallb (fun b => Byte.to_N b <? 128) data
      then Detection None 0
      else Detection (Some "utf-8"%string) 0.99
    | inr _ => Detection None 0
    end.

(** ** The listing of [show_files_info] *)

(** The entry of one file in [dir_data]: its base name, the encoding column,
    and the statistics, which are absent without [--stat], [None] when
    [os.stat] failed (the key ['error']), and otherwise the size in bytes
    with the two strings made of the size and of the creation time. *)
Record file_data := FileData {
  basename_raw : string;
  enc_raw : string;
  stat_raw : option (option (nat * string * string))
}.

(** The variables of the loops of lines 220 to 239: the entries so far, the
    three [max_widths], and the four counters. *)
Record scan_state := ScanState {
  dir_data : list file_data;
  width_name : nat;
  width_enc : nat;
  width_size : nat;
  dir_files : nat;
  dir_size : nat;
  total_files : nat;
  total_size : nat
}.

(** The statistics column of a printed line. *)
Inductive stats_column :=
| StatsError
| StatsColumn (size_pad size_raw date_raw : string).

(** A printed line, by its parts: name, padding, encoding, padding and, with
    [--stat], the statistics. *)
Record file_line := FileLine {
  line_name : string;
  line_name_pad : string;
  line_enc : string;
  line_enc_pad : string;
  line_stats : option stats_column
}.

(** What is printed for one directory: the header if there is one, the
    lines, and the subtotal (files, bytes) if there is one. *)
Record dir_block := DirBlock {
  block_dir : string;
  block_header : bool;
  block_lines : list file_line;
  block_subtotal : option (nat * nat)
}.

Inductive listing :=
| NoFilesListed
| Listed (blocks : list dir_block) (grand_total : option (nat * nat)).

(** [' ' * n]. *)
Fixpoint spaces (n : nat) : string :=
  match n with
  | O => EmptyString
  | S k => String " " (spaces k)
  end.

(** [str(x)] for the label that [detect_encoding] returns. *)
Definition str_of (v : pyval) : string :=
  match v with
  | PyStr s => s
  | _ => "None"
  end.

(** Lines 209 to 213: [files_by_dir], a dict in insertion order. *)
Fixpoint dict_append (dir_path f : string) (d : list (string * list string))
  : list (string * list string) :=
  match d with
  | [] => [(dir_path, [f])]
  | (k, l) :: rest =>
    if String.eqb k dir_path then (k, l ++ [f]) :: rest
    else (k, l) :: dict_append dir_path f rest
  end.

Fixpoint group_by_dir (found : list string) (files_by_dir : list (string * list string))
  : list (string * list string) :=
  match found with
  | [] => files_by_dir
  | f :: rest =>
    let dir_path := or_default (Some (OsPath.dirname f)) "." in
    group_by_dir rest (dict_append dir_path f files_by_dir)
  end.

(** [sorted(files_by_dir.items())]: the keys differ, so the order is that of
    the keys. *)
Fixpoint insert_item (x : string * list string) (l : list (string * list string))
  : list (string * list string) :=
  match l with
  | [] => [x]
  | y :: rest =>
    if String.leb x.1 y.1 then x :: l else y :: insert_item x rest
  end.

Fixpoint sorted_items (l : list (string * list string)) : list (string * list string) :=
  match l with
  | [] => []
  | x :: rest => insert_item x (sorted_items rest)
  end.

Section Listing.

Variable chardet_detect : bytes -> detection.
Variable get_files : world -> string -> string -> bool -> list string.

(** [format_size], the formatting of [st_ctime] and the formatting of the
    confidence as a percentage work on floating-point numbers; they are
    taken as they are. *)
Variable format_size : nat -> string.
Variable ctime_of : world -> string -> string.
Variable percent : pyval -> string.

(** Lines 223 to 239: one file of a directory. *)
Definition scan_file (w : world) (show_stats fixed_width : bool)
    (fname : string) (st : scan_state) : scan_state + exn :=
  match detect_encoding chardet_detect w fname with
  | inr e => inr e
  | inl (encoding, conf) =>
    let enc := str_of encoding +:+ " (" +:+ percent conf +:+ "%)" in
    let stat :=
      if show_stats then
        Some match os_stat w fname with
             | Some file_size =>
               Some (file_size, format_size file_size, ctime_of w fname)
             | None => None
             end
      else None in
    let data := FileData (OsPath.basename fname) enc stat in
    let counted :=
      match stat with
      | Some (Some (file_size, _, _)) => Some file_size
      | _ => None
      end in
    inl (ScanState
           (dir_data st ++ [data])
           (if fixed_width
            then Nat.max (width_name st) (String.length (basename_raw data))
            else width_name st)
           (if fixed_width
            then Nat.max (width_enc st) (String.length enc)
            else width_enc st)
           (match stat with
            | Some (Some (_, size_raw, _)) =>
              if fixed_width
              then Nat.max (width_size st) (String.length size_raw)
              else width_size st
            | _ => width_size st
            end)
           (match counted with Some _ => S (dir_files st) | None => dir_files st end)
           (match counted with Some n => dir_size st + n | None => dir_size st end)%nat
           (match counted with Some _ => S (total_files st) | None => total_files st end)
           (match counted with Some n => total_size st + n | None => total_size st end)%nat)
  end.

Fixpoint scan_files (w : world) (show_stats fixed_width : bool)
    (dir_file_list : list string) (st : scan_state) : scan_state + exn :=
  match dir_file_list with
  | [] => inl st
  | fname :: rest =>
    match scan_file w show_stats fixed_width fname st with
    | inr e => inr e
    | inl st' => scan_files w show_stats fixed_width rest st'
    end
  end.

(** Lines 241 to 250: the line of one entry. *)
Definition line_of (show_stats fixed_width : bool) (st : scan_state)
    (data : file_data) : file_line :=
  let name_pad :=
    if fixed_width then spaces (width_name st - String.length (basename_raw data))
    else EmptyString in
  let enc_pad :=
    if fixed_width then spaces (width_enc st - String.length (enc_raw data))
    else EmptyString in
  FileLine (basename_raw data) name_pad (enc_raw data) enc_pad
           (if show_stats then
              match stat_raw data with
              | Some (Some (_, size_raw, date_raw)) =>
                let size_pad :=
                  if fixed_width then spaces (width_size st - String.length size_raw)
                  else EmptyString in
                Some (StatsColumn size_pad size_raw date_raw)
              | _ => Some StatsError
              end
            else None).

(** Lines 216 to 253: the directories in order, the totals carried along. *)
Fixpoint list_dirs (w : world) (base_dir : string)
    (recursive show_stats fixed_width : bool)
    (items : list (string * list string)) (files_so_far size_so_far : nat)
  : list dir_block * nat * nat + exn :=
  match items with
  | [] => inl ([], files_so_far, size_so_far)
  | (dir_path, dir_file_list) :: rest =>
    let header := recursive || negb (String.eqb base_dir dir_path) in
    match scan_files w show_stats fixed_width dir_file_list
                     (ScanState [] 0 0 0 0 0 files_so_far size_so_far) with
    | inr e => inr e
    | inl st =>
      let block :=
        DirBlock dir_path header
                 (map (line_of show_stats fixed_width st) (dir_data st))
                 (if show_stats && negb (Nat.eqb (dir_files st) 0)
                  then Some (dir_files st, dir_size st) else None) in
      match list_dirs w base_dir recursive show_stats fixed_width rest
                      (total_files st) (total_size st) with
      | inr e => inr e
      | inl (blocks, tf, ts) => inl (block :: blocks, tf, ts)
      end
    end
  end.

(** [show_files_info], lines 201 to 258. *)
Definition show_files_info (w : world) (ext base_dir : string)
    (recursive show_stats fixed_width : bool) : listing + exn :=
  let ext := OsPath.lstrip_by (Ascii.eqb ".") ext in
  let found := get_files w ext base_dir recursive in
  match found with
  | [] => inl NoFilesListed
  | _ =>
    let files_by_dir := group_by_dir found [] in
    match list_dirs w base_dir recursive show_stats fixed_width
                    (sorted_items files_by_dir) 0 0 with
    | inr e => inr e
    | inl (blocks, files_total, size_total) =>
      inl (Listed blocks
                  (if show_stats && negb (Nat.eqb files_total 0)
                   then Some (files_total, size_total) else None))
    end
  end.

End Listing.

(** The directory under which a file is listed, and the size [os.stat]
    reports for it (0 when [os.stat] fails). *)
Definition listed_dir (f : string) : string :=
  or_default (Some (OsPath.dirname f)) ".".

Definition size_in (w : world) (f : string) : nat :=
  default 0%nat (os_stat w f).

(** Every group holds files of its own directory, and no directory has two
    groups. *)
Definition grouped (d : list (string * list string)) : Prop :=
  NoDup (map fst d) ∧
  Forall (fun item => item.2 ≠ [] ∧ Forall (fun f => listed_dir f = item.1) item.2) d.

(** The number of names of a list for which [os.stat] succeeds, and the sum
    of the sizes it reports. *)
Definition stat_count (w : world) (l : list string) : nat :=
  sum_list_with (fun f => if path_exists w f then 1 else 0)%nat l.

Definition stat_bytes (w : world) (l : list string) : nat :=
  sum_list_with (size_in w) l.

(** The widths of the three padded columns of a line. *)
Definition name_width (l : file_line) : nat :=
  (String.length (line_name l) + String.length (line_name_pad l))%nat.

Definition enc_width (l : file_line) : nat :=
  (String.length (line_enc l) + String.length (line_enc_pad l))%nat.

Definition size_text (l : file_line) : nat :=
  match line_stats l with
  | Some (StatsColumn _ size_raw _) => String.length size_raw
  | _ => 0%nat
  end.

Definition size_width (l : file_line) : nat :=
  match line_stats l with
  | Some (StatsColumn size_pad size_raw _) =>
    (String.length size_pad + String.length size_raw)%nat
  | _ => 0%nat
  end.

(** The columns of a block are aligned: each is as wide as its longest
    text, in every line (the size column in every line that has one). *)
Definition aligned (lines : list file_line) : Prop :=
  Forall (fun l =>
            name_width l = max_list_with (fun l' => String.length (line_name l')) lines ∧
            enc_width l = max_list_with (fun l' => String.length (line_enc l')) lines ∧
            match line_stats l with
            | Some (StatsColumn _ _ _) => size_width l = max_list_with size_text lines
            | _ => True
            end)
         lines.

Definition unpadded (lines : list file_line) : Prop :=
  Forall (fun l =>
            line_name_pad l = EmptyString ∧
            line_enc_pad l = EmptyString ∧
            match line_stats l with
            | Some (StatsColumn size_pad _ _) => size_pad = EmptyString
            | _ => True
            end)
         lines.

(** What holds of the loop variables after the files [scanned_files] of a directory,
    with the totals [files0] and [size0] at its start. *)
Definition scanned (w : world) (show_stats fixed_width : bool)
    (files0 size0 : nat) (scanned_files : list string) (st : scan_state) : Prop :=
  map basename_raw (dir_data st) = map OsPath.basename scanned_files ∧
  Forall (fun d => if show_stats then is_Some (stat_raw d) else stat_raw d = None)
         (dir_data st) ∧
  dir_files st = (if show_stats then stat_count w scanned_files else 0)%nat ∧
  dir_size st = (if show_stats then stat_bytes w scanned_files else 0)%nat ∧
  total_files st = (files0 + dir_files st)%nat ∧
  total_size st = (size0 + dir_size st)%nat ∧
  width_name st
  = (if fixed_width
     then max_list_with (fun d => String.length (basename_raw d)) (dir_data st)
     else 0)%nat ∧
  width_enc st
  = (if fixed_width
     then max_list_with (fun d => String.length (enc_raw d)) (dir_data st)
     else 0)%nat ∧
  width_size st
  = (if fixed_width
     then max_list_with
            (fun d => match stat_raw d with
                      | Some (Some (_, size_raw, _)) => String.length size_raw
                      | _ => 0
                      end) (dir_data st)
     else 0)%nat.

(** ** Sample surroundings *)

(** A directory with a file to convert, the output of an earlier conversion
    of it, a second file, and two directories whose names end in [.txt]. *)
Definition sample_dir : world :=
  World (list_to_map [ ("d/a.txt", zajac_raw); ("d/a_UTF8.txt", []);
                       ("b.txt", [x41; x42]) ]%string)
        ∅
        (list_to_map [ ("d/old.txt", Directory 4096);
                       ("d/a_UTF16LE.txt", Directory 4096) ]%string).

(** A search that finds the given files, a user who gives the given answer,
    and plain stand-ins for the three formatting functions: a size in
    tally marks, one date for every file, and the percentages of 0 and 1. *)
Definition finds (found : list string) : world -> string -> string -> bool -> list string :=
  fun _ _ _ _ => found.

Definition answers (r : input_result) : string -> input_result := fun _ => r.

Definition plain_size (n : nat) : string :=
  String.concat "" (repeat "|"%string n) +:+ " B".

Definition plain_ctime : world -> string -> string := fun _ _ => "2025-10-22 00:00:00".

Definition plain_percent (conf : pyval) : string :=
  match conf with
  | PyFloat q => if Qeq_bool q 1 then "100.0" else if Qeq_bool q 0 then "0.0" else "?"
  | PyInt 1 => "100.0"
  | PyInt 0 => "0.0"
  | _ => "?"
  end.

(** Command lines: [-i d/a.txt --format utf8], with [-o out.txt] and
    without. *)
Definition args_convert (output : option string) (fmt : option string) : args :=
  Args (Some "d/a.txt"%string) output fmt None None "." false None
       false false false false false.

(** ** Facts about labels and candidate lists *)

Lemma utf_label_nonempty enc : str_in "utf" (lower enc) = true → truthy (Some enc) = true.
Proof. destruct enc; [discriminate | reflexivity]. Qed.

Lemma utf_label_not_legacy enc :
  str_in "utf" (lower enc) = true → enc ∉ ["windows-1250"; "iso8859_2"]%string.
Proof.
  intros H Hin. repeat (apply elem_of_cons in Hin as [-> | Hin]; [vm_compute in H; discriminate |]).
  by apply elem_of_nil in Hin.
Qed.

Lemma candidates_utf enc :
  str_in "utf" (lower enc) = true →
  encodings_to_try (Some enc) = ["windows-1250"; "iso8859_2"; enc]%string.
Proof.
  intros H. unfold encodings_to_try. rewrite (utf_label_nonempty _ H).
  rewrite bool_decide_eq_false_2 by by apply utf_label_not_legacy. reflexivity.
Qed.

Lemma decode_attempts_app tr1 tr2 :
  decode_attempts (tr1 ++ tr2) = decode_attempts tr1 ++ decode_attempts tr2.
Proof. apply omap_app. Qed.

Lemma file_accesses_app tr1 tr2 :
  file_accesses (tr1 ++ tr2) = file_accesses tr1 ++ file_accesses tr2.
Proof. apply omap_app. Qed.

Lemma decode_attempts_map encs : decode_attempts (map EvDecode encs) = encs.
Proof. induction encs as [|e r IH]; [done | cbn; f_equal; exact IH]. Qed.

Section EngineFacts.

Variable chardet_detect : bytes -> detection.
Variable decode : string -> bytes -> text + exn.
Variable encode : string -> text -> bytes + exn.

Lemma decode_loop_skip det raw pre rest :
  Forall (skipped decode raw) pre →
  decode_loop decode det raw (pre ++ rest) =
    (map EvDecode pre ++ (decode_loop decode det raw rest).1,
     (decode_loop decode det raw rest).2).
Proof.
  induction 1 as [|enc pre Hs _ IH]; cbn [app map decode_loop].
  - by destruct decode_loop.
  - rewrite IH. by destruct Hs as [-> | ->].
Qed.

Lemma decode_loop_first_success det raw pre enc post t :
  Forall (skipped decode raw) pre →
  decode enc raw = inl t →
  decode_loop decode det raw (pre ++ enc :: post) =
    (map EvDecode pre ++
       [EvDecode enc;
        EvPrint (if bool_decide (Some enc ≠ det) then MsgFallback enc else MsgDecoded enc)],
     inr (Some t)).
Proof.
  intros Hpre Hok. rewrite decode_loop_skip by done. cbn. by rewrite Hok.
Qed.

Lemma decode_stage_no_utf det raw :
  label_has_utf det = false →
  decode_stage decode det raw = decode_loop decode det raw (encodings_to_try det).
Proof.
  intros H. unfold decode_stage, trust_utf. destruct det as [enc|]; cbn in H.
  - rewrite H, andb_false_r. by destruct decode_loop.
  - by destruct decode_loop.
Qed.

Lemma decode_stage_utf_ok enc raw t :
  str_in "utf" (lower enc) = true →
  decode enc raw = inl t →
  decode_stage decode (Some enc) raw =
    ([EvDecode enc; EvPrint (MsgDecodedUnicode enc)], inr (Some t)).
Proof.
  intros H Hok. unfold decode_stage, trust_utf.
  by rewrite (utf_label_nonempty _ H), H, Hok.
Qed.

Lemma decode_stage_utf_fallthrough enc raw :
  str_in "utf" (lower enc) = true →
  decode enc raw = inr UnicodeDecodeError →
  decode_stage decode (Some enc) raw =
    let fallback := ["windows-1250"; "iso8859_2"; enc]%string in
    (EvDecode enc :: (decode_loop decode (Some enc) raw fallback).1,
     (decode_loop decode (Some enc) raw fallback).2).
Proof.
  intros H Hko. unfold decode_stage, trust_utf.
  rewrite (utf_label_nonempty _ H), H, Hko, (candidates_utf _ H). cbn -[decode_loop].
  by destruct decode_loop.
Qed.

Lemma decode_stage_utf_raise enc raw e :
  str_in "utf" (lower enc) = true →
  decode enc raw = inr e →
  e ≠ UnicodeDecodeError →
  decode_stage decode (Some enc) raw = ([EvDecode enc], inl e).
Proof.
  intros H He Hne. unfold decode_stage, trust_utf.
  rewrite (utf_label_nonempty _ H), H, He. by destruct e.
Qed.

Lemma detected_encoding_get d :
  as_str (dict_get (detection_dict d) "encoding" PyNone) = det_encoding d.
Proof.
  unfold dict_get, detection_dict. rewrite lookup_insert_eq.
  by destruct (det_encoding d).
Qed.

Lemma confidence_get d default :
  dict_get (detection_dict d) "confidence" default = PyFloat (det_confidence d).
Proof.
  unfold dict_get, detection_dict.
  rewrite lookup_insert_ne by done. by rewrite lookup_insert_eq.
Qed.

(** The run on a readable, non-empty file, by the result of the decoding
    steps. *)
Lemma convert_nonempty w file_in file_out target_format raw :
  files w !! file_in = Some raw →
  raw ≠ [] →
  convert_encoding chardet_detect decode encode w file_in file_out target_format =
    let det := det_encoding (chardet_detect raw) in
    let tr0 := preamble chardet_detect file_in raw in
    match decode_stage decode det raw with
    | (tr, inl e) => Result (Raised e) w (tr0 ++ tr)
    | (tr, inr None) =>
      Result AllDecodeFailed w (tr0 ++ tr ++ [EvPrint MsgAllFailed])
    | (tr, inr (Some t)) =>
      prepend (tr0 ++ tr) (write_output encode w file_out (upper target_format) t)
    end.
Proof.
  intros Hin Hraw. unfold convert_encoding, open_read. rewrite Hin.
  destruct raw as [|b raw]; [done |].
  by rewrite detected_encoding_get, confidence_get.
Qed.

Lemma write_output_no_decode w file_out fmt t :
  decode_attempts (res_trace (write_output encode w file_out fmt t)) = [].
Proof.
  unfold write_output. destruct (SUPPORTED_FORMATS !! fmt); [|done].
  destruct open_write; [|done]. by destruct encode.
Qed.

Lemma decode_loop_all_skipped det raw encs :
  Forall (skipped decode raw) encs →
  decode_loop decode det raw encs = (map EvDecode encs, inr None).
Proof.
  intros H. rewrite <- (app_nil_r encs) at 1.
  rewrite decode_loop_skip by done. cbn. by rewrite app_nil_r.
Qed.

Lemma decode_loop_events det raw encs :
  file_accesses (decode_loop decode det raw encs).1 = [] ∧
  EvDetect ∉ (decode_loop decode det raw encs).1.
Proof.
  induction encs as [|enc encs [IH1 IH2]]; cbn [decode_loop]; [set_solver |].
  destruct (decode enc raw) as [t | []]; cbn; try set_solver.
  all: destruct decode_loop; cbn in *; set_solver.
Qed.

Lemma decode_loop_successes det raw encs :
  (successes decode raw (decode_attempts (decode_loop decode det raw encs).1) ≤ 1)%nat.
Proof.
  unfold successes.
  induction encs as [|enc encs IH]; cbn [decode_loop]; [cbn; lia |].
  destruct (decode enc raw) as [t | e] eqn:He.
  - cbn. unfold decodes. rewrite He. cbn. lia.
  - assert (decodes decode raw enc = false) as Hno by (unfold decodes; by rewrite He).
    destruct e; try (cbn; rewrite Hno; cbn; lia).
    all: destruct decode_loop; cbn in *; rewrite Hno; exact IH.
Qed.

Lemma decode_loop_prefix det raw encs :
  decode_attempts (decode_loop decode det raw encs).1 `prefix_of` encs.
Proof.
  induction encs as [|enc encs IH]; cbn [decode_loop]; [done |].
  destruct (decode enc raw) as [t | []]; cbn;
    try (apply prefix_cons, prefix_nil).
  all: destruct decode_loop; cbn in *; by apply prefix_cons.
Qed.

Lemma decode_stage_events det raw :
  file_accesses (decode_stage decode det raw).1 = [] ∧
  EvDetect ∉ (decode_stage decode det raw).1.
Proof.
  unfold decode_stage, trust_utf.
  pose proof (decode_loop_events det raw (encodings_to_try det)) as [Hl1 Hl2].
  destruct det as [enc|]; [destruct (_ && _); [destruct (decode enc raw) as [t | []] |] |];
    cbn -[encodings_to_try decode_loop]; try set_solver.
  all: destruct (decode_loop _ _ _ _); cbn in *; set_solver.
Qed.

Lemma write_output_events w file_out fmt t :
  EvDetect ∉ res_trace (write_output encode w file_out fmt t).
Proof.
  unfold write_output. destruct (SUPPORTED_FORMATS !! fmt); [|set_solver].
  destruct open_write; [|set_solver]. destruct encode; set_solver.
Qed.

(** The decode attempts of a run are those of its decoding steps. *)
Lemma convert_attempts w file_in file_out target_format raw :
  files w !! file_in = Some raw →
  raw ≠ [] →
  decode_attempts
    (res_trace (convert_encoding chardet_detect decode encode
                                 w file_in file_out target_format))
  = decode_attempts (decode_stage decode (det_encoding (chardet_detect raw)) raw).1.
Proof.
  intros Hin Hraw. rewrite (convert_nonempty _ _ _ _ raw) by done. cbv zeta.
  destruct decode_stage as [tr [e | [t|]]]; cbn [res_trace prepend fst];
    rewrite ?decode_attempts_app, ?write_output_no_decode, ?app_nil_r; done.
Qed.

Lemma write_output_writes w file_out target_format t tr0 :
  (∀ data, EvWrite file_out data ∉ tr0) →
  text_is_written encode w file_out target_format t
    (prepend tr0 (write_output encode w file_out (upper target_format) t)).
Proof.
  intros Htr0. unfold text_is_written, write_output, open_write.
  destruct (SUPPORTED_FORMATS !! upper target_format) as [codec|]; [|done].
  destruct (decide (file_out ∈ locked w)); [split; [by eexists | done] |].
  destruct (encode codec t) as [data | e]; cbn [prepend res_outcome res_world res_trace].
  - split_and!; [done | | set_solver].
    unfold write_bytes. cbn [files]. by rewrite insert_insert_eq.
  - split_and!; [done | done |].
    intros data [Hin | Hin]%elem_of_app; [by eapply Htr0 | set_solver].
Qed.

Lemma convert_writes_text w file_in file_out target_format raw tr t :
  files w !! file_in = Some raw →
  raw ≠ [] →
  decode_stage decode (det_encoding (chardet_detect raw)) raw = (tr, inr (Some t)) →
  text_is_written encode w file_out target_format t
    (convert_encoding chardet_detect decode encode w file_in file_out target_format).
Proof.
  intros Hin Hraw Hst. rewrite (convert_nonempty _ _ _ _ raw) by done. cbv zeta.
  pose proof (decode_stage_events (det_encoding (chardet_detect raw)) raw) as [Hacc _].
  rewrite Hst in *. cbn [fst] in Hacc.
  apply write_output_writes. intros data [Hp | Ht]%elem_of_app.
  - unfold preamble in Hp. set_solver.
  - assert (file_out ∈ file_accesses tr) as Hbad.
    { apply list_elem_of_omap. by exists (EvWrite file_out data). }
    rewrite Hacc in Hbad. set_solver.
Qed.

(** C5: converting a zero-byte input file ends at the empty-input return for
    every target format, supported or not: the output file is created empty,
    the detector is not called and no decoding is attempted. *)
Theorem empty_input_short_circuit w file_in file_out target_format :
  files w !! file_in = Some [] →
  file_out ∉ locked w →
  let r := convert_encoding chardet_detect decode encode
                            w file_in file_out target_format in
  res_outcome r = EmptyCreated ∧
  files (res_world r) = <[file_out := []]> (files w) ∧
  file_accesses (res_trace r) = [file_in; file_out] ∧
  (EvDetect ∉ res_trace r) ∧
  decode_attempts (res_trace r) = [].
Proof.
  intros Hin Hout. unfold convert_encoding, open_read, open_write.
  rewrite Hin. rewrite decide_False by done. cbn. split_and!; try done. set_solver.
Qed.

(** C4: when every candidate of the list (the legacy pair and the detector's
    label, when it was appended) fails to decode a non-empty input, the run
    ends at the "all decoding attempts failed" return; the file system is
    left as it was, and the only file the run touched is the input. *)
Theorem total_failure_no_output w file_in file_out target_format raw :
  files w !! file_in = Some raw →
  raw ≠ [] →
  Forall (decode_fails decode raw) (encodings_to_try (det_encoding (chardet_detect raw))) →
  let r := convert_encoding chardet_detect decode encode
                            w file_in file_out target_format in
  res_outcome r = AllDecodeFailed ∧
  res_world r = w ∧
  last (res_trace r) = Some (EvPrint MsgAllFailed) ∧
  file_accesses (res_trace r) = [file_in].
Proof.
  intros Hin Hraw Hall. cbv zeta. rewrite (convert_nonempty _ _ _ _ raw) by done.
  cbv zeta. set (det := det_encoding (chardet_detect raw)) in *.
  pose proof (decode_stage_events det raw) as [Hacc _].
  assert (Forall (skipped decode raw) (encodings_to_try det)) as Hskip.
  { eapply Forall_impl; [exact Hall |]. intros enc He. by left. }
  assert (∃ tr, decode_stage decode det raw = (tr, inr None)) as [tr Hst].
  { destruct (label_has_utf det) eqn:Hutf.
    - destruct det as [enc|]; [|done]. cbn in Hutf.
      rewrite (candidates_utf _ Hutf) in Hall, Hskip.
      assert (decode enc raw = inr UnicodeDecodeError) as He.
      { eapply Forall_forall in Hall; [exact Hall | set_solver]. }
      rewrite decode_stage_utf_fallthrough by done. cbv zeta.
      rewrite decode_loop_all_skipped by done. by eexists.
    - rewrite decode_stage_no_utf by done.
      rewrite decode_loop_all_skipped by done. by eexists. }
  rewrite Hst in *. cbn [fst] in Hacc. cbn [res_outcome res_world res_trace].
  split_and!; [done | done | |].
  - by rewrite !app_assoc, last_snoc.
  - unfold preamble. rewrite !file_accesses_app, Hacc. done.
Qed.

(** C2: when the detector's label contains "utf" in any letter case, that
    encoding is the first one tried.  If it decodes the data, nothing else
    is attempted and its text is the one that is encoded and written.  If it
    fails with [UnicodeDecodeError], the run goes on with windows-1250,
    iso8859_2 and the label once more, in that order, and the text of the
    first of them that decodes is the one written; when none decodes, the
    run ends with all decodings failed.  If it fails with any other
    exception, nothing is caught: the exception leaves the function, no
    other candidate is tried and the file system is as before. *)
Theorem utf_label_tried_first w file_in file_out target_format raw enc :
  files w !! file_in = Some raw →
  raw ≠ [] →
  det_encoding (chardet_detect raw) = Some enc →
  str_in "utf" (lower enc) = true →
  let r := convert_encoding chardet_detect decode encode
                            w file_in file_out target_format in
  let attempts := decode_attempts (res_trace r) in
  let uses := fun t => text_is_written encode w file_out target_format t r in
  let tr0 := preamble chardet_detect file_in raw in
  (∃ later, attempts = enc :: later) ∧
  (∀ t, decode enc raw = inl t →
        attempts = [enc] ∧
        uses t ∧
        r = prepend (tr0 ++ [EvDecode enc; EvPrint (MsgDecodedUnicode enc)])
                    (write_output encode w file_out (upper target_format) t)) ∧
  (decode enc raw = inr UnicodeDecodeError →
   encodings_to_try (Some enc) = ["windows-1250"; "iso8859_2"; enc]%string ∧
   (∀ t, decode "windows-1250"%string raw = inl t →
         attempts = [enc; "windows-1250"]%string ∧ uses t) ∧
   (∀ t, skipped decode raw "windows-1250" →
         decode "iso8859_2"%string raw = inl t →
         attempts = [enc; "windows-1250"; "iso8859_2"]%string ∧ uses t) ∧
   (skipped decode raw "windows-1250" →
    skipped decode raw "iso8859_2" →
    attempts = [enc; "windows-1250"; "iso8859_2"; enc]%string ∧
    res_outcome r = AllDecodeFailed ∧
    res_world r = w)) ∧
  (∀ e, decode enc raw = inr e →
        e ≠ UnicodeDecodeError →
        attempts = [enc] ∧
        res_outcome r = Raised e ∧
        res_world r = w).
Proof.
  intros Hin Hraw Hdet Hutf. cbv zeta.
  pose proof (convert_writes_text w file_in file_out target_format raw) as Hwr.
  rewrite (convert_attempts _ _ _ _ raw) by done.
  rewrite Hdet in *. split_and!.
  - destruct (decode enc raw) as [t | e] eqn:He.
    + rewrite (decode_stage_utf_ok _ _ t) by done. by eexists.
    + destruct (decide (e = UnicodeDecodeError)) as [-> | Hne].
      * rewrite decode_stage_utf_fallthrough by done. by eexists.
      * rewrite (decode_stage_utf_raise _ _ e) by done. by eexists.
  - intros t He. pose proof (decode_stage_utf_ok enc raw t Hutf He) as Hst.
    rewrite Hst. split_and!; [done | by eapply Hwr |].
    rewrite (convert_nonempty _ _ _ _ raw) by done. cbv zeta. by rewrite Hdet, Hst.
  - intros He. pose proof (decode_stage_utf_fallthrough enc raw Hutf He) as Hst.
    cbv zeta in Hst. split_and!.
    + by apply candidates_utf.
    + intros t Hw.
      assert (decode_stage decode (Some enc) raw
              = ([EvDecode enc; EvDecode "windows-1250";
                  EvPrint (MsgFallback "windows-1250")], inr (Some t))) as Hst'.
      { rewrite Hst. cbn [decode_loop]. rewrite Hw. cbn [fst snd].
        rewrite bool_decide_eq_true_2; [done |].
        intros [= Heq]. subst enc. vm_compute in Hutf. discriminate. }
      rewrite Hst'. split; [done | by eapply Hwr].
    + intros t Hw Hi.
      assert (decode_stage decode (Some enc) raw
              = ([EvDecode enc; EvDecode "windows-1250"; EvDecode "iso8859_2";
                  EvPrint (MsgFallback "iso8859_2")], inr (Some t))) as Hst'.
      { rewrite Hst. cbn [decode_loop].
        destruct Hw as [-> | ->]; rewrite Hi; cbn [fst snd].
        all: rewrite bool_decide_eq_true_2; [done |].
        all: intros [= Heq]; subst enc; vm_compute in Hutf; discriminate. }
      rewrite Hst'. split; [done | by eapply Hwr].
    + intros Hw Hi.
      assert (decode_stage decode (Some enc) raw
              = (EvDecode enc :: map EvDecode ["windows-1250"; "iso8859_2"; enc]%string,
                 inr None)) as Hst'.
      { rewrite Hst, decode_loop_all_skipped; [done |].
        repeat apply Forall_cons_2; [done | done | by left | apply Forall_nil_2]. }
      rewrite (convert_nonempty _ _ _ _ raw) by done. cbv zeta.
      by rewrite Hdet, Hst'.
  - intros e He Hne. pose proof (decode_stage_utf_raise enc raw e Hutf He Hne) as Hst.
    rewrite (convert_nonempty _ _ _ _ raw) by done. cbv zeta.
    by rewrite Hdet, Hst.
Qed.

(** C10: when the decoding steps produced a text but the codec of the target
    format cannot encode it, the output file has already been opened for
    writing: the run ends in the write-error branch with the output path
    created, or truncated, to an empty file and nothing written to it.  The
    file system therefore differs from the initial one unless the output
    file was already there and empty. *)
Theorem encode_failure_truncates_output
    w file_in file_out target_format raw tr t codec e :
  files w !! file_in = Some raw →
  raw ≠ [] →
  decode_stage decode (det_encoding (chardet_detect raw)) raw = (tr, inr (Some t)) →
  SUPPORTED_FORMATS !! upper target_format = Some codec →
  encode codec t = inr e →
  file_out ∉ locked w →
  let r := convert_encoding chardet_detect decode encode
                            w file_in file_out target_format in
  res_outcome r = WriteError e ∧
  files (res_world r) = <[file_out := []]> (files w) ∧
  file_accesses (res_trace r) = [file_in; file_out] ∧
  EvOpenWrite file_out ∈ res_trace r ∧
  (∀ data, EvWrite file_out data ∉ res_trace r) ∧
  (files w !! file_out ≠ Some [] → res_world r ≠ w).
Proof.
  intros Hin Hraw Hst Hfmt Henc Hout. cbv zeta.
  rewrite (convert_nonempty _ _ _ _ raw) by done. cbv zeta.
  pose proof (decode_stage_events (det_encoding (chardet_detect raw)) raw) as [Hacc _].
  rewrite Hst in *. cbn [fst] in Hacc.
  unfold write_output, open_write. rewrite Hfmt, decide_False, Henc by done.
  cbn [prepend res_outcome res_world res_trace files]. split_and!; try done.
  - unfold preamble. rewrite !file_accesses_app, Hacc. done.
  - set_solver.
  - intros data Hin'. unfold preamble in Hin'. rewrite !elem_of_app in Hin'.
    destruct Hin' as [[Hp | Ht] | Hw]; [set_solver | | set_solver].
    assert (file_out ∈ file_accesses tr) as Hbad.
    { apply list_elem_of_omap. by exists (EvWrite file_out data). }
    rewrite Hacc in Hbad. set_solver.
  - intros Hne Heq. apply Hne. rewrite <- Heq. cbn. by rewrite lookup_insert_eq.
Qed.

Lemma write_output_not_raised w file_out fmt t e :
  res_outcome (write_output encode w file_out fmt t) ≠ Raised e.
Proof.
  unfold write_output. destruct (SUPPORTED_FORMATS !! fmt); [|done].
  destruct open_write; [|done]. by destruct encode.
Qed.

Lemma decode_loop_no_raise det raw encs e :
  Forall (fun enc => decodes decode raw enc = true ∨ decode_fails decode raw enc) encs →
  (decode_loop decode det raw encs).2 ≠ inl e.
Proof.
  induction 1 as [|enc encs Henc _ IH]; cbn [decode_loop]; [done |].
  unfold decodes, decode_fails in Henc.
  destruct (decode enc raw) as [t | e'] eqn:He; [done |].
  destruct Henc as [? | [= ->]]; [done |]. by destruct decode_loop.
Qed.

(** C9, as amended: a candidate whose decode fails with a decode error is
    passed over without a trace and the next one is tried, so a run in which
    every candidate either decodes or fails that way raises nothing.  A
    label that names no codec of the runtime is another matter: the lookup
    error it raises is caught neither by the handler of the UTF attempt nor
    by the one inside the loop, and it leaves the engine. *)
Theorem decode_errors_handled_lookup_errors_escape
    w file_in file_out target_format raw :
  files w !! file_in = Some raw →
  raw ≠ [] →
  let det := det_encoding (chardet_detect raw) in
  let r := convert_encoding chardet_detect decode encode
                            w file_in file_out target_format in
  ((∀ enc, enc ∈ encodings_to_try det →
           decodes decode raw enc = true ∨ decode_fails decode raw enc) →
   ∀ e, res_outcome r ≠ Raised e) ∧
  (∀ enc, det = Some enc →
          str_in "utf" (lower enc) = true →
          decode enc raw = inr LookupError →
          res_outcome r = Raised LookupError ∧
          res_world r = w ∧
          decode_attempts (res_trace r) = [enc]) ∧
  (∀ enc, det = Some enc →
          label_has_utf det = false →
          encodings_to_try det = ["windows-1250"; "iso8859_2"; enc]%string →
          decode_fails decode raw "windows-1250" →
          decode_fails decode raw "iso8859_2" →
          decode enc raw = inr LookupError →
          res_outcome r = Raised LookupError ∧
          res_world r = w ∧
          decode_attempts (res_trace r) = ["windows-1250"; "iso8859_2"; enc]%string).
Proof.
  intros Hin Hraw. cbv zeta.
  rewrite (convert_attempts _ _ _ _ raw), (convert_nonempty _ _ _ _ raw) by done.
  cbv zeta. set (det := det_encoding (chardet_detect raw)). split_and!.
  - intros Hall e.
    assert ((decode_stage decode det raw).2 ≠ inl e) as Hst.
    { destruct (label_has_utf det) eqn:Hutf.
      - destruct det as [enc|]; [|done]. cbn in Hutf.
        destruct (Hall enc) as [Hok | Hko].
        { rewrite (candidates_utf _ Hutf). set_solver. }
        + unfold decodes in Hok. destruct (decode enc raw) as [t|] eqn:He; [|done].
          by rewrite (decode_stage_utf_ok _ _ t).
        + rewrite decode_stage_utf_fallthrough by done. cbv zeta. cbn [snd].
          rewrite <- (candidates_utf _ Hutf). by apply decode_loop_no_raise, Forall_forall.
      - rewrite decode_stage_no_utf by done. by apply decode_loop_no_raise, Forall_forall. }
    destruct decode_stage as [tr [e' | [t|]]]; cbn [snd] in Hst;
      cbn [res_outcome prepend]; [congruence | | done].
    apply write_output_not_raised.
  - intros enc -> Hutf He. by rewrite (decode_stage_utf_raise _ _ LookupError).
  - intros enc -> Hutf Hcand Hw Hi He. rewrite decode_stage_no_utf, Hcand by done.
    unfold decode_fails in Hw, Hi. cbn [decode_loop]. by rewrite Hw, Hi, He.
Qed.

(** C6, as amended: an unknown format name is turned away by [main], which
    checks the name against the format table before it calls anything that
    touches a file: for an ASCII name that is not a key once upper-cased,
    [main] ends with the invalid-format exit exactly when [--help] is not
    given and the name is not empty (with [--help] it shows the help text;
    an empty name counts as no format).  The engine has no check of its own:
    whatever the format name, its first step is to open the input file, and
    with an unknown name a decoded text gets as far as the write step, where
    the failed table lookup is reported as a write error and the output path
    is not opened.  Names with other than ASCII characters are left aside:
    [str.upper] turns some of them (U+0131, U+017F) into ASCII letters. *)
Theorem invalid_format_rejected_by_main w file_in file_out target_format :
  isascii target_format = true →
  SUPPORTED_FORMATS !! upper target_format = None →
  let r := convert_encoding chardet_detect decode encode
                            w file_in file_out target_format in
  (∀ a, format a = Some target_format →
        (main a = ExitInvalidFormat target_format ↔
         help a = false ∧ target_format ≠ EmptyString) ∧
        (help a = true → main a = ShowDetailedHelp)) ∧
  (∃ rest, res_trace r = EvOpenRead file_in :: rest) ∧
  (∀ raw tr t,
      files w !! file_in = Some raw →
      raw ≠ [] →
      decode_stage decode (det_encoding (chardet_detect raw)) raw = (tr, inr (Some t)) →
      res_outcome r = WriteError (KeyError (upper target_format)) ∧
      res_world r = w ∧
      file_accesses (res_trace r) = [file_in]).
Proof.
  intros _ Hfmt. cbv zeta. split_and!.
  - intros a Hf. unfold main. rewrite Hf. cbn [arg default]. split; [split |].
    + destruct (help a); [done |]. intros Hmain. split; [done |].
      intros ->. cbn [truthy andb] in Hmain.
      repeat (destruct (truthy _) || destruct (negb _) || cbn [andb] in Hmain);
        discriminate.
    + intros [-> Hne]. destruct target_format; [done |]. cbn [truthy andb].
      by rewrite bool_decide_eq_true_2.
    + by intros ->.
  - unfold convert_encoding.
    destruct (open_read w file_in) as [[|b raw] | []]; try by eexists.
    + destruct open_write; by eexists.
    + destruct decode_stage as [tr [e | [t|]]]; by eexists.
  - intros raw tr t Hin Hraw Hst.
    rewrite (convert_nonempty _ _ _ _ raw) by done. cbv zeta.
    pose proof (decode_stage_events (det_encoding (chardet_detect raw)) raw) as [Hacc _].
    rewrite Hst in *. cbn [fst] in Hacc. unfold write_output. rewrite Hfmt.
    cbn [prepend res_outcome res_world res_trace]. split_and!; [done | done |].
    unfold preamble. rewrite !file_accesses_app, Hacc. done.
Qed.

(** C8, what the code does: on a non-empty file for which the detector's
    dict holds [None] under ['encoding'], [detect_encoding] returns that
    [None] as the label, since the default of [get] is used for an absent
    key only; the label is not the string "unknown". *)
Theorem detect_encoding_passes_none_on w filename data :
  files w !! filename = Some data →
  data ≠ [] →
  det_encoding (chardet_detect data) = None →
  detect_encoding chardet_detect w filename
  = inl (PyNone, PyFloat (det_confidence (chardet_detect data))) ∧
  detect_encoding chardet_detect w filename
  ≠ inl (PyStr "unknown", PyFloat (det_confidence (chardet_detect data))).
Proof.
  intros Hin Hdata Hnone. unfold detect_encoding, open_read. rewrite Hin.
  destruct data as [|b data]; [done |].
  rewrite confidence_get. unfold dict_get, detection_dict.
  rewrite lookup_insert_eq, Hnone. done.
Qed.

End EngineFacts.

(** ** Facts about the codecs *)

Module CodecFacts.
Import Codecs.

Lemma to_N_byte_of n : n < 256 → Byte.to_N (byte_of n) = n.
Proof.
  intros Hn. unfold byte_of. destruct (Byte.of_N n) as [b|] eqn:Hb.
  - by apply Byte.to_of_N.
  - apply Byte.of_N_None_iff in Hb. lia.
Qed.

Lemma to_N_lt_256 b : Byte.to_N b < 256.
Proof. pose proof (Byte.to_N_bounded b). lia. Qed.

Lemma byte_of_to_N b : byte_of (Byte.to_N b) = b.
Proof. unfold byte_of. by rewrite Byte.of_to_N. Qed.

(** *** Charmap codecs *)

Lemma index_of_lookup c tbl i0 i :
  index_of c tbl i0 = Some i →
  i0 ≤ i ∧ i < i0 + N.of_nat (length tbl) ∧ tbl !! N.to_nat (i - i0) = Some (Some c).
Proof.
  revert i0. induction tbl as [|e tbl IH]; intros i0; cbn [index_of]; [done |].
  case_decide as He.
  - intros [= <-]. rewrite N.sub_diag. cbn [length]. split_and!; [lia | lia | by rewrite He].
  - intros [Hle [Hlt Hl]]%IH. cbn [length]. split_and!; [lia | lia |].
    replace (N.to_nat (i - i0)) with (S (N.to_nat (i - (i0 + 1)))) by lia. done.
Qed.

Lemma charmap_char_roundtrip high c b :
  length high = 128%nat →
  charmap_encode_char high c = Some b →
  charmap_decode_byte high b = Some c.
Proof.
  intros Hlen. unfold charmap_encode_char, charmap_decode_byte.
  destruct (N.ltb_spec c 128) as [Hc | Hc].
  - intros [= <-]. rewrite to_N_byte_of by lia.
    by apply N.ltb_lt in Hc as ->.
  - destruct (index_of c high 128) as [i|] eqn:Hi; [|done].
    intros [= <-]. apply index_of_lookup in Hi as (Hle & Hlt & Hl).
    rewrite Hlen in Hlt. rewrite to_N_byte_of by lia.
    destruct (N.ltb_spec i 128); [lia |]. by rewrite Hl.
Qed.

Lemma charmap_roundtrip high t bs :
  length high = 128%nat →
  charmap_encode high t = inl bs →
  charmap_decode high bs = inl t.
Proof.
  intros Hlen. unfold charmap_encode, charmap_decode.
  destruct (mapM _ t) as [bs'|] eqn:He; [|done]. intros [= <-].
  apply mapM_Some in He.
  assert (mapM (charmap_decode_byte high) bs' = Some t) as ->; [|done].
  apply mapM_Some, Forall2_flip.
  eapply Forall2_impl; [exact He |]. intros c b. by apply charmap_char_roundtrip.
Qed.

Lemma polish_char_elim (P : N → Prop) :
  (∀ c, c < 128 → P c) →
  Forall P polish_diacritics →
  ∀ c, polish_char c → P c.
Proof.
  intros Hascii Hdia c [Hc | Hc]; [by apply Hascii |].
  by eapply Forall_forall in Hdia.
Qed.

Lemma charmap_encodes_polish high t :
  Forall (fun c => is_Some (charmap_encode_char high c)) polish_diacritics →
  polish_text t →
  ∃ bs, charmap_encode high t = inl bs.
Proof.
  intros Hdia Ht. unfold charmap_encode.
  destruct (mapM_is_Some_2 (charmap_encode_char high) t) as [bs ->]; [|by eexists].
  eapply Forall_impl; [exact Ht |]. apply polish_char_elim; [|exact Hdia].
  intros c Hc. unfold charmap_encode_char, compose.
  apply N.ltb_lt in Hc as ->. by eexists.
Qed.

Lemma cp1250_encodes_polish :
  Forall (fun c => is_Some (charmap_encode_char cp1250_high c)) polish_diacritics.
Proof. repeat constructor; by eexists. Qed.

Lemma iso8859_2_encodes_polish :
  Forall (fun c => is_Some (charmap_encode_char iso8859_2_high c)) polish_diacritics.
Proof. repeat constructor; by eexists. Qed.

(** Pure ASCII decodes as itself under both charmap codecs. *)
Lemma charmap_decode_ascii high raw :
  ascii_bytes raw → charmap_decode high raw = inl (map Byte.to_N raw).
Proof.
  intros Hraw. unfold charmap_decode.
  assert (mapM (charmap_decode_byte high) raw = Some (map Byte.to_N raw)) as ->; [|done].
  apply mapM_Some. induction Hraw as [|b raw Hb _ IH]; constructor; [|done].
  unfold charmap_decode_byte. by apply N.ltb_lt in Hb as ->.
Qed.

(** ISO 8859-2 gives a character to every byte, so decoding with it cannot
    fail. *)
Lemma iso8859_2_decodes_byte b : is_Some (charmap_decode_byte iso8859_2_high b).
Proof. destruct b; by eexists. Qed.

Lemma iso8859_2_total raw : ∃ t, charmap_decode iso8859_2_high raw = inl t.
Proof.
  unfold charmap_decode.
  destruct (mapM_is_Some_2 (charmap_decode_byte iso8859_2_high) raw) as [t ->];
    [|by eexists].
  apply Forall_forall. intros b _. apply iso8859_2_decodes_byte.
Qed.

(** *** UTF-8 *)

(** Settle a comparison in the goal from the linear facts at hand. *)
Ltac settle_tests :=
  repeat match goal with
         | |- context [N.ltb ?a ?b] =>
           first [ replace (N.ltb a b) with true by (symmetry; apply N.ltb_lt; lia)
                 | replace (N.ltb a b) with false by (symmetry; apply N.ltb_ge; lia) ]
         | |- context [N.leb ?a ?b] =>
           first [ replace (N.leb a b) with true by (symmetry; apply N.leb_le; lia)
                 | replace (N.leb a b) with false by (symmetry; apply N.leb_gt; lia) ]
         end.

(** Base-64 digits of a code point. *)
Lemma digits64 c :
  c = 64 * (c / 64) + c mod 64 ∧ c mod 64 < 64.
Proof. split; [apply N.div_mod' | by apply N.mod_lt]. Qed.

Lemma utf8_two_bytes c rest :
  0x80 ≤ c → c < 0x800 →
  utf8_decode_opt (byte_of (0xC0 + c / 64) :: byte_of (0x80 + c mod 64) :: rest)
  = cons c <$> utf8_decode_opt rest.
Proof.
  intros Hlo Hhi. destruct (digits64 c) as [Hc Hr].
  set (q := c / 64) in *. set (r := c mod 64) in *.
  cbn [utf8_decode_opt]. unfold is_cont, cont_bits.
  rewrite !to_N_byte_of by lia. settle_tests. cbn [andb].
  do 2 f_equal. lia.
Qed.

Lemma utf8_three_bytes c rest :
  0x800 ≤ c → c < 0x10000 → is_surrogate c = false →
  utf8_decode_opt (byte_of (0xE0 + c / 4096) :: byte_of (0x80 + (c / 64) mod 64)
                   :: byte_of (0x80 + c mod 64) :: rest)
  = cons c <$> utf8_decode_opt rest.
Proof.
  intros Hlo Hhi Hsur. destruct (digits64 c) as [Hc Hr].
  destruct (digits64 (c / 64)) as [Hd Hm].
  replace (c / 4096) with (c / 64 / 64) by by rewrite N.Div0.div_div.
  set (r := c mod 64) in *. set (m := (c / 64) mod 64) in *.
  set (q := c / 64 / 64) in *. clearbody r m q.
  cbn [utf8_decode_opt]. unfold is_cont, cont_bits.
  rewrite !to_N_byte_of by lia.
  replace ((0xE0 + q - 0xE0) * 4096 + (0x80 + m - 0x80) * 64 + (0x80 + r - 0x80))
    with c by lia.
  rewrite Hsur. settle_tests. done.
Qed.

Lemma utf8_four_bytes c rest :
  0x10000 ≤ c → c < 0x110000 →
  utf8_decode_opt (byte_of (0xF0 + c / 262144) :: byte_of (0x80 + (c / 4096) mod 64)
                   :: byte_of (0x80 + (c / 64) mod 64)
                   :: byte_of (0x80 + c mod 64) :: rest)
  = cons c <$> utf8_decode_opt rest.
Proof.
  intros Hlo Hhi. destruct (digits64 c) as [Hc Hr].
  destruct (digits64 (c / 64)) as [Hd Hm].
  destruct (digits64 (c / 64 / 64)) as [He Hn].
  replace (c / 4096) with (c / 64 / 64) by by rewrite N.Div0.div_div.
  replace (c / 262144) with (c / 64 / 64 / 64) by by rewrite !N.Div0.div_div.
  set (r := c mod 64) in *. set (m := (c / 64) mod 64) in *.
  set (n := (c / 64 / 64) mod 64) in *.
  set (q := c / 64 / 64 / 64) in *. clearbody r m n q.
  cbn [utf8_decode_opt]. unfold is_cont, cont_bits.
  rewrite !to_N_byte_of by lia.
  replace ((0xF0 + q - 0xF0) * 262144 + (0x80 + n - 0x80) * 4096
           + (0x80 + m - 0x80) * 64 + (0x80 + r - 0x80)) with c by lia.
  settle_tests. done.
Qed.

Lemma utf8_char_roundtrip c bs rest :
  utf8_encode_char c = Some bs →
  utf8_decode_opt (bs ++ rest) = cons c <$> utf8_decode_opt rest.
Proof.
  unfold utf8_encode_char.
  destruct (N.ltb_spec c 0x80).
  { intros [= <-]. cbn [app utf8_decode_opt]. rewrite to_N_byte_of by lia.
    by settle_tests. }
  destruct (N.ltb_spec c 0x800).
  { intros [= <-]. by apply utf8_two_bytes. }
  destruct (is_surrogate c) eqn:Hsur; [done |].
  destruct (N.ltb_spec c 0x10000).
  { intros [= <-]. by apply utf8_three_bytes. }
  destruct (N.ltb_spec c 0x110000); [|done].
  intros [= <-]. by apply utf8_four_bytes.
Qed.

Lemma utf8_decode_concat t bss :
  Forall2 (fun c bs => utf8_encode_char c = Some bs) t bss →
  utf8_decode_opt (concat bss) = Some t.
Proof.
  induction 1 as [|c bs t bss Hc _ IH]; [done |].
  cbn [concat]. by rewrite (utf8_char_roundtrip _ _ _ Hc), IH.
Qed.

Lemma utf8_roundtrip t bs : utf8_encode t = inl bs → utf8_decode bs = inl t.
Proof.
  unfold utf8_encode, utf8_decode.
  destruct (mapM utf8_encode_char t) as [bss|] eqn:He; [|done]. intros [= <-].
  by rewrite (utf8_decode_concat t bss) by by apply mapM_Some.
Qed.

Lemma utf8_sig_roundtrip t bs : utf8_sig_encode t = inl bs → utf8_sig_decode bs = inl t.
Proof.
  unfold utf8_sig_encode. destruct (utf8_encode t) as [bs'|] eqn:He; [|done].
  intros [= <-]. cbn. by apply utf8_roundtrip.
Qed.

Lemma polish_char_small c : polish_char c → c < 0x800.
Proof.
  revert c. apply polish_char_elim; [lia |]. repeat constructor.
Qed.

Lemma utf8_encodes_polish t : polish_text t → ∃ bs, utf8_encode t = inl bs.
Proof.
  intros Ht. unfold utf8_encode.
  destruct (mapM_is_Some_2 utf8_encode_char t) as [bss ->]; [|by eexists].
  eapply Forall_impl; [exact Ht |]. intros c Hc%polish_char_small.
  unfold compose, utf8_encode_char. destruct (c <? 0x80); [by eexists |].
  apply N.ltb_lt in Hc as ->. by eexists.
Qed.

(** *** UTF-16 *)

Lemma digits256 u : u = 256 * (u / 256) + u mod 256 ∧ u mod 256 < 256.
Proof. split; [apply N.div_mod' | by apply N.mod_lt]. Qed.

Lemma digits1024 v : v = 1024 * (v / 1024) + v mod 1024 ∧ v mod 1024 < 1024.
Proof. split; [apply N.div_mod' | by apply N.mod_lt]. Qed.

Lemma utf16_units_bound c us :
  utf16_units c = Some us → Forall (fun u => u < 65536) us.
Proof.
  unfold utf16_units. destruct (is_surrogate c); [done |].
  destruct (N.ltb_spec c 0x10000);
    [intros [= <-]; repeat first [apply Forall_nil_2 | apply Forall_cons_2; [cbv beta; lia |]] |].
  destruct (N.ltb_spec c 0x110000); [|done].
  destruct (digits1024 (c - 0x10000)) as [Hv Hr].
  set (hi := (c - 0x10000) / 1024) in *. set (lo := (c - 0x10000) mod 1024) in *.
  clearbody hi lo. intros [= <-].
  repeat first [apply Forall_nil_2 | apply Forall_cons_2; [cbv beta; lia |]].
Qed.

Lemma utf16_split_units be us :
  Forall (fun u => u < 65536) us →
  utf16_split be (concat (map (unit_bytes be) us)) = Some us.
Proof.
  induction 1 as [|u us Hu _ IH]; [done |].
  cbn [map concat]. unfold unit_bytes at 1.
  destruct (digits256 u) as [Hd Hr].
  set (hi := u / 256) in *. set (lo := u mod 256) in *. clearbody hi lo.
  destruct be; cbn [app utf16_split]; rewrite IH, !to_N_byte_of by lia;
    cbn [fmap option_fmap option_map]; do 2 f_equal; lia.
Qed.

Lemma utf16_char_roundtrip c us rest :
  utf16_units c = Some us →
  utf16_join (us ++ rest) = cons c <$> utf16_join rest.
Proof.
  unfold utf16_units. destruct (is_surrogate c) eqn:Hsur; [done |].
  unfold is_surrogate in Hsur.
  destruct (N.ltb_spec c 0x10000).
  - intros [= <-]. cbn [app utf16_join].
    apply andb_false_iff in Hsur as [Hc%N.leb_gt | Hc%N.leb_gt];
      settle_tests; done.
  - destruct (N.ltb_spec c 0x110000); [|done].
    destruct (digits1024 (c - 0x10000)) as [Hv Hr].
    set (hi := (c - 0x10000) / 1024) in *. set (lo := (c - 0x10000) mod 1024) in *.
    clearbody hi lo. intros [= <-]. cbn [app utf16_join].
    settle_tests. cbn [andb]. do 2 f_equal. lia.
Qed.

Lemma utf16_join_concat t uss :
  Forall2 (fun c us => utf16_units c = Some us) t uss →
  utf16_join (concat uss) = Some t.
Proof.
  induction 1 as [|c us t uss Hc _ IH]; [done |].
  cbn [concat]. by rewrite (utf16_char_roundtrip _ _ _ Hc), IH.
Qed.

Lemma utf16_roundtrip be t bs :
  utf16_encode be t = inl bs → utf16_decode be bs = inl t.
Proof.
  unfold utf16_encode, utf16_decode.
  destruct (mapM utf16_units t) as [uss|] eqn:He; [|done]. intros [= <-].
  apply mapM_Some in He. rewrite utf16_split_units.
  - cbn. by rewrite (utf16_join_concat t uss).
  - apply Forall_concat. eapply Forall2_Forall_r; [exact He |].
    apply Forall_forall. intros c _ us. apply utf16_units_bound.
Qed.

Lemma utf16_encodes_polish be t : polish_text t → ∃ bs, utf16_encode be t = inl bs.
Proof.
  intros Ht. unfold utf16_encode.
  destruct (mapM_is_Some_2 utf16_units t) as [uss ->]; [|by eexists].
  eapply Forall_impl; [exact Ht |]. intros c Hc%polish_char_small.
  unfold compose, utf16_units, is_surrogate.
  destruct (N.leb_spec 0xD800 c); [lia |]. cbn [andb].
  destruct (N.ltb_spec c 0x10000); [by eexists | lia].
Qed.

(** *** Every codec of the registry inverts its own encoder *)

Lemma codec_roundtrip c t bs : codec_encode c t = inl bs → codec_decode c bs = inl t.
Proof.
  destruct c; cbn [codec_encode codec_decode].
  - by apply charmap_roundtrip.
  - by apply charmap_roundtrip.
  - apply utf8_roundtrip.
  - apply utf8_sig_roundtrip.
  - apply utf16_roundtrip.
  - apply utf16_roundtrip.
Qed.

Lemma codec_encodes_polish c t : polish_text t → ∃ bs, codec_encode c t = inl bs.
Proof.
  intros Ht. destruct c; cbn [codec_encode].
  - by apply charmap_encodes_polish; [apply cp1250_encodes_polish |].
  - by apply charmap_encodes_polish; [apply iso8859_2_encodes_polish |].
  - by apply utf8_encodes_polish.
  - unfold utf8_sig_encode. destruct (utf8_encodes_polish t Ht) as [bs ->]. by eexists.
  - by apply utf16_encodes_polish.
  - by apply utf16_encodes_polish.
Qed.

End CodecFacts.

(** ** The engine on the runtime's codecs *)

Import Codecs CodecFacts.

Lemma utf8_decode_ascii raw :
  ascii_bytes raw → utf8_decode raw = inl (map Byte.to_N raw).
Proof.
  intros Hraw. unfold utf8_decode.
  assert (utf8_decode_opt raw = Some (map Byte.to_N raw)) as ->; [|done].
  induction Hraw as [|b raw Hb _ IH]; [done |].
  cbn [utf8_decode_opt map]. apply N.ltb_lt in Hb as ->. by rewrite IH.
Qed.

Lemma supported_formats_table fmt codec :
  SUPPORTED_FORMATS !! fmt = Some codec ↔
  (fmt, codec) ∈
    [ ("UTF8", "utf-8"); ("UTF8WBOM", "utf-8"); ("UTF8BOM", "utf-8-sig");
      ("ANSI", "cp1250"); ("ISO8859_2", "iso8859_2");
      ("UTF16LE", "utf-16-le"); ("UTF16BE", "utf-16-be") ]%string.
Proof.
  unfold SUPPORTED_FORMATS. symmetry. apply elem_of_list_to_map.
  cbn. repeat (apply NoDup_cons_2; [set_solver |]). apply NoDup_nil_2.
Qed.

Lemma supported_codec_known fmt name :
  SUPPORTED_FORMATS !! fmt = Some name → is_Some (codec_of_name name).
Proof.
  intros H%supported_formats_table.
  repeat (apply elem_of_cons in H as [[= -> ->] | H]; [by eexists |]).
  by apply elem_of_nil in H.
Qed.

(** C7: for each of the seven entries of the format table, a text of ASCII
    characters and Polish letters with diacritics is encoded by the entry's
    codec, and decoding the bytes with the same codec gives the text back. *)
Theorem supported_formats_round_trip other fmt codec t :
  SUPPORTED_FORMATS !! fmt = Some codec →
  polish_text t →
  (fmt, codec) ∈
    [ ("UTF8", "utf-8"); ("UTF8WBOM", "utf-8"); ("UTF8BOM", "utf-8-sig");
      ("ANSI", "cp1250"); ("ISO8859_2", "iso8859_2");
      ("UTF16LE", "utf-16-le"); ("UTF16BE", "utf-16-be") ]%string ∧
  ∃ data, py_encode codec t = inl data ∧ py_decode other codec data = inl t.
Proof.
  intros Hfmt Ht. split; [by apply supported_formats_table |].
  destruct (supported_codec_known _ _ Hfmt) as [c Hc].
  unfold py_encode, py_decode. rewrite Hc.
  destruct (codec_encodes_polish c t Ht) as [data Hdata].
  exists data. split; [done | by apply codec_roundtrip].
Qed.

Lemma successes_first_success decode raw pre enc t :
  Forall (skipped decode raw) pre →
  decode enc raw = inl t →
  successes decode raw (pre ++ [enc]) = 1%nat.
Proof.
  intros Hpre Hok. unfold successes. rewrite List.filter_app, length_app.
  assert (List.filter (decodes decode raw) pre = []) as ->.
  { induction Hpre as [|e pre He _ IH]; [done |].
    cbn. unfold decodes at 1. by destruct He as [-> | ->]. }
  cbn. unfold decodes. by rewrite Hok.
Qed.

Lemma convert_successes chardet_detect decode encode w file_in file_out fmt raw :
  files w !! file_in = Some raw →
  (successes decode raw
     (decode_attempts
        (res_trace (convert_encoding chardet_detect decode encode w file_in file_out fmt)))
   ≤ 1)%nat.
Proof.
  intros Hin. destruct (decide (raw = [])) as [-> | Hraw].
  - unfold convert_encoding, open_read. rewrite Hin.
    destruct open_write; cbn; lia.
  - rewrite (convert_attempts _ _ _ _ _ _ _ raw) by done.
    set (det := det_encoding (chardet_detect raw)).
    destruct (label_has_utf det) eqn:Hutf.
    + destruct det as [enc|]; [|done]. cbn in Hutf.
      destruct (decode enc raw) as [t | e] eqn:He.
      * rewrite (decode_stage_utf_ok _ _ _ t) by done.
        cbn. unfold decodes. rewrite He. cbn. lia.
      * assert (decodes decode raw enc = false) as Hno
            by (unfold decodes; by rewrite He).
        destruct (decide (e = UnicodeDecodeError)) as [-> | Hne].
        -- rewrite decode_stage_utf_fallthrough by done. cbv zeta. cbn [fst].
           pose proof (decode_loop_successes decode (Some enc) raw
                         ["windows-1250"; "iso8859_2"; enc]%string) as Hle.
           unfold successes in *. cbn [decode_attempts omap list_omap List.filter].
           fold (decode_attempts (decode_loop decode (Some enc) raw
                         ["windows-1250"; "iso8859_2"; enc]%string).1).
           by rewrite Hno.
        -- rewrite (decode_stage_utf_raise _ _ _ e) by done.
           cbn. rewrite Hno. cbn. lia.
    + rewrite decode_stage_no_utf by done. apply decode_loop_successes.
Qed.

(** C3: the loop stops at the first candidate that decodes.  With the
    candidates before it all passed over and the candidate itself decoding,
    the loop tries exactly those, in order, and returns that candidate's
    text, whatever comes after it in the list.  A run whose candidate list
    splits that way attempts exactly those and writes this text: encoded
    with the codec of the target format, its bytes are the content of the
    output file.  No run has more than one successful decode among its
    attempts; and pure ASCII input, which
    every one of the codecs decodes to the same text, is decoded by the
    first candidate of the list. *)
Theorem first_success_wins chardet_detect decode encode det raw pre enc post t :
  Forall (skipped decode raw) pre →
  decode enc raw = inl t →
  let won :=
    [EvDecode enc;
     EvPrint (if bool_decide (Some enc ≠ det) then MsgFallback enc else MsgDecoded enc)] in
  decode_loop decode det raw (pre ++ enc :: post)
  = (map EvDecode pre ++ won, inr (Some t)) ∧
  (∀ w file_in file_out target_format,
      files w !! file_in = Some raw →
      raw ≠ [] →
      det_encoding (chardet_detect raw) = det →
      label_has_utf det = false →
      encodings_to_try det = pre ++ enc :: post →
      let r := convert_encoding chardet_detect decode encode
                                w file_in file_out target_format in
      decode_attempts (res_trace r) = pre ++ [enc] ∧
      successes decode raw (decode_attempts (res_trace r)) = 1%nat ∧
      text_is_written encode w file_out target_format t r ∧
      r = prepend (preamble chardet_detect file_in raw ++ map EvDecode pre ++ won)
                  (write_output encode w file_out (upper target_format) t)) ∧
  (∀ w file_in file_out target_format data,
      files w !! file_in = Some data →
      (successes decode data
         (decode_attempts
            (res_trace (convert_encoding chardet_detect decode encode
                                         w file_in file_out target_format)))
       ≤ 1)%nat) ∧
  (∀ other label data rest,
      ascii_bytes data →
      Forall (fun name => py_decode other name data = inl (map Byte.to_N data))
             ["windows-1250"; "iso8859_2"; "utf-8"]%string ∧
      decode_attempts
        (decode_loop (py_decode other) label data ("windows-1250"%string :: rest)).1
      = ["windows-1250"%string] ∧
      (decode_loop (py_decode other) label data ("windows-1250"%string :: rest)).2
      = inr (Some (map Byte.to_N data))).
Proof.
  intros Hpre Hok won. split_and!.
  - by apply decode_loop_first_success.
  - intros w file_in file_out target_format Hin Hraw Hdet Hutf Hcand. cbv zeta.
    assert (decode_stage decode (det_encoding (chardet_detect raw)) raw
            = (map EvDecode pre ++ won, inr (Some t))) as Hst.
    { rewrite Hdet, decode_stage_no_utf, Hcand by done.
      by apply decode_loop_first_success. }
    rewrite (convert_attempts _ _ _ _ _ _ _ raw), Hst by done. cbn [fst].
    rewrite decode_attempts_app, decode_attempts_map. split_and!; [done | | |].
    + by apply (successes_first_success _ _ _ _ t).
    + by eapply convert_writes_text.
    + rewrite (convert_nonempty _ _ _ _ _ _ _ raw) by done. cbv zeta. by rewrite Hst.
  - intros. by apply convert_successes.
  - intros other label data rest Hdata. split_and!.
    + repeat apply Forall_cons_2; [| | | apply Forall_nil_2].
      * by apply charmap_decode_ascii.
      * by apply charmap_decode_ascii.
      * by apply utf8_decode_ascii.
    + cbn [decode_loop].
      change (py_decode other "windows-1250" data) with (charmap_decode cp1250_high data).
      by rewrite charmap_decode_ascii.
    + cbn [decode_loop].
      change (py_decode other "windows-1250" data) with (charmap_decode cp1250_high data).
      by rewrite charmap_decode_ascii.
Qed.

(** C1, as amended: when the detector's label does not contain "utf", the
    candidates are windows-1250, then iso8859_2, then the label if there is
    one and it is neither of the two; the run tries a prefix of that list,
    starting with windows-1250, and bytes that windows-1250 decodes are
    decoded by it and by nothing else.  For [b"Zaj\xb1\xe6"] and the target
    ISO8859_2 this means that the text is the windows-1250 reading
    "Zaj", U+00B1, U+0107 (not "Zająć"); ISO 8859-2 has no U+00B1, so the
    run ends with a write error and an empty output file. *)
Theorem legacy_candidates_tried_first
    chardet_detect decode encode w file_in file_out target_format raw :
  files w !! file_in = Some raw →
  raw ≠ [] →
  label_has_utf (det_encoding (chardet_detect raw)) = false →
  let det := det_encoding (chardet_detect raw) in
  let legacy := ["windows-1250"; "iso8859_2"]%string in
  let r := convert_encoding chardet_detect decode encode
                            w file_in file_out target_format in
  encodings_to_try det
  = legacy ++ (if truthy det && negb (bool_decide (arg det ∈ legacy))
               then [arg det] else []) ∧
  decode_attempts (res_trace r) `prefix_of` encodings_to_try det ∧
  (∃ later, decode_attempts (res_trace r) = "windows-1250"%string :: later) ∧
  (∀ t, decode "windows-1250"%string raw = inl t →
        decode_attempts (res_trace r) = ["windows-1250"%string] ∧
        r = prepend
              (preamble chardet_detect file_in raw ++
               [EvDecode "windows-1250";
                EvPrint (if bool_decide (Some "windows-1250"%string ≠ det)
                         then MsgFallback "windows-1250"
                         else MsgDecoded "windows-1250")])
              (write_output encode w file_out (upper target_format) t)) ∧
  (∀ other,
      raw = zajac_raw →
      decode = py_decode other →
      encode = py_encode →
      upper target_format = "ISO8859_2"%string →
      file_out ∉ locked w →
      py_decode other "windows-1250" zajac_raw = inl zajac_cp1250 ∧
      py_encode "iso8859_2" zajac_cp1250 = inr UnicodeEncodeError ∧
      decode_attempts (res_trace r) = ["windows-1250"%string] ∧
      res_outcome r = WriteError UnicodeEncodeError ∧
      files (res_world r) = <[file_out := []]> (files w)).
Proof.
  intros Hin Hraw Hutf det legacy r.
  assert (decode_attempts (res_trace r)
          = decode_attempts (decode_loop decode det raw (encodings_to_try det)).1) as Hatt.
  { subst r. rewrite (convert_attempts _ _ _ _ _ _ _ raw) by done.
    by rewrite decode_stage_no_utf. }
  assert (∀ t, decode "windows-1250"%string raw = inl t →
        decode_attempts (res_trace r) = ["windows-1250"%string] ∧
        r = prepend
              (preamble chardet_detect file_in raw ++
               [EvDecode "windows-1250";
                EvPrint (if bool_decide (Some "windows-1250"%string ≠ det)
                         then MsgFallback "windows-1250"
                         else MsgDecoded "windows-1250")])
              (write_output encode w file_out (upper target_format) t)) as Hwin.
  { intros t Ht. rewrite Hatt. subst r.
    rewrite (convert_nonempty _ _ _ _ _ _ _ raw) by done. cbv zeta.
    rewrite decode_stage_no_utf by done. fold det.
    assert (∃ rest, encodings_to_try det = "windows-1250"%string :: rest) as [rest ->].
    { unfold encodings_to_try. destruct det as [enc|]; [destruct (_ && _) |]; by eexists. }
    cbn [decode_loop]. by rewrite Ht. }
  split_and!.
  - unfold encodings_to_try, legacy. destruct det as [enc|]; cbn [arg default];
      [destruct (_ && _) |]; done.
  - rewrite Hatt. apply decode_loop_prefix.
  - rewrite Hatt.
    assert (∃ rest, encodings_to_try det = "windows-1250"%string :: rest) as [rest ->].
    { unfold encodings_to_try. destruct det as [enc|]; [destruct (_ && _) |]; by eexists. }
    cbn [decode_loop]. destruct (decode "windows-1250"%string raw) as [t | []];
      try by eexists.
    all: destruct (decode_loop decode det raw rest); eexists; reflexivity.
  - exact Hwin.
  - intros other -> -> -> Hfmt Hout.
    destruct (Hwin zajac_cp1250) as [Ha Hr]; [done |].
    split_and!; [done | done | done | |].
    + rewrite Hr, Hfmt. unfold write_output, open_write.
      by rewrite decide_False by done.
    + rewrite Hr, Hfmt. unfold write_output, open_write.
      by rewrite decide_False by done.
Qed.

Lemma cp1250_decode_outcome raw :
  (∃ t, charmap_decode cp1250_high raw = inl t) ∨
  charmap_decode cp1250_high raw = inr UnicodeDecodeError.
Proof. unfold charmap_decode. destruct mapM; [left; by eexists | by right]. Qed.

Lemma legacy_loop_decodes other det raw rest :
  ∃ tr t, decode_loop (py_decode other) det raw
                      ("windows-1250" :: "iso8859_2" :: rest)%string
          = (tr, inr (Some t)) ∧
          decode_attempts tr `prefix_of` ["windows-1250"; "iso8859_2"]%string.
Proof.
  cbn [decode_loop].
  change (py_decode other "windows-1250" raw) with (charmap_decode cp1250_high raw).
  change (py_decode other "iso8859_2" raw) with (charmap_decode iso8859_2_high raw).
  destruct (iso8859_2_total raw) as [t2 ->].
  destruct (cp1250_decode_outcome raw) as [[t1 ->] | ->].
  - do 2 eexists. split; [done |]. by exists ["iso8859_2"%string].
  - do 2 eexists. split; [done |]. done.
Qed.

(** X1: with the codecs of the runtime the "all decoding attempts failed"
    return cannot be reached, because iso8859_2 gives a character to every
    byte: a run on a readable, non-empty file never ends there, and inside
    the loop the detector's label, the third candidate, is never tried. *)
Theorem total_failure_unreachable chardet_detect other encode
    w file_in file_out target_format raw :
  files w !! file_in = Some raw →
  raw ≠ [] →
  let det := det_encoding (chardet_detect raw) in
  let r := convert_encoding chardet_detect (py_decode other) encode
                            w file_in file_out target_format in
  res_outcome r ≠ AllDecodeFailed ∧
  decode_attempts (decode_loop (py_decode other) det raw (encodings_to_try det)).1
    `prefix_of` ["windows-1250"; "iso8859_2"]%string.
Proof.
  intros Hin Hraw det r.
  assert (∃ rest, encodings_to_try det = ("windows-1250" :: "iso8859_2" :: rest)%string)
    as [rest Hcand].
  { unfold encodings_to_try. destruct det as [enc|]; [destruct (_ && _) |]; by eexists. }
  destruct (legacy_loop_decodes other det raw rest) as (tr & t & Hloop & Hpre).
  split; [|by rewrite Hcand, Hloop].
  subst r. rewrite (convert_nonempty _ _ _ _ _ _ _ raw) by done. cbv zeta. fold det.
  unfold decode_stage. rewrite Hcand, Hloop.
  destruct (trust_utf (py_decode other) det raw) as [tr1 [e | [t1|]]];
    cbn [res_outcome prepend]; try done.
  all: unfold write_output; destruct (SUPPORTED_FORMATS !! _); [|done];
    destruct open_write; [|done]; by destruct encode.
Qed.

(** X2: [main] hands the engine a format of the table only: whenever it
    goes on to a conversion, of one file or of all files of an extension, the
    upper-cased format name is a key of the format table. *)
Theorem main_converts_supported_formats_only a target_format :
  (∃ file_in file_out, main a = ConvertTo file_in file_out target_format) ∨
  (∃ file_in ow, main a = ConvertAutoNamed file_in target_format ow) ∨
  (∃ e sfx d rec ow, main a = ProcessAll e target_format sfx d rec ow) →
  is_Some (SUPPORTED_FORMATS !! upper target_format).
Proof.
  unfold main. destruct (help a); [naive_solver |].
  destruct (truthy (format a)) eqn:Hf; cbn [andb negb].
  - case_bool_decide as Hk; [naive_solver |].
    apply not_eq_None_Some in Hk.
    destruct (truthy (show_ext a)); [naive_solver |].
    destruct (truthy (ext a)); [naive_solver |].
    destruct (truthy (input_file a)); [|naive_solver].
    destruct (truthy (output_file a)); cbn [andb negb]; naive_solver.
  - destruct (truthy (show_ext a)); [naive_solver |].
    destruct (truthy (ext a)); [naive_solver |].
    destruct (truthy (input_file a)); [|naive_solver].
    rewrite andb_false_r. cbn [andb]. destruct (negb _); naive_solver.
Qed.

(** X3: each of the six codecs inverts its own encoder: whatever text the
    codec behind a name encodes, decoding the bytes under the same name
    gives the text back. *)
Theorem codecs_invert_their_encoders other name c t data :
  codec_of_name name = Some c →
  py_encode name t = inl data →
  py_decode other name data = inl t.
Proof.
  intros Hc. unfold py_encode, py_decode. rewrite Hc. apply codec_roundtrip.
Qed.

(** ** The theorems at sample inputs *)

Lemma empty_input_sample :
  let r := convert_encoding (detects None 0) (py_decode no_other) py_encode
                            (one_file "in" []) "in" "out" "UTF16LE" in
  res_outcome r = EmptyCreated ∧
  files (res_world r) !! "out"%string = Some [] ∧
  decode_attempts (res_trace r) = [].
Proof.
  destruct (empty_input_short_circuit (detects None 0) (py_decode no_other) py_encode
              (one_file "in" []) "in" "out" "UTF16LE")
    as (Ho & Hf & _ & _ & Ha); [reflexivity | apply not_elem_of_empty |].
  cbv zeta. rewrite Hf. split_and!; [exact Ho | apply lookup_insert_eq | exact Ha].
Defined.

Lemma total_failure_sample :
  let w := one_file "in" [xff] in
  let r := convert_encoding (detects (Some "utf-8"%string) 0.5) all_utf8 py_encode
                            w "in" "out" "UTF8" in
  res_outcome r = AllDecodeFailed ∧ res_world r = w.
Proof.
  destruct (total_failure_no_output (detects (Some "utf-8"%string) 0.5) all_utf8 py_encode
              (one_file "in" [xff]) "in" "out" "UTF8" [xff])
    as (Ho & Hw & _); [reflexivity | discriminate | |].
  - repeat apply Forall_cons_2; [reflexivity.. | apply Forall_nil_2].
  - split; [exact Ho | exact Hw].
Defined.

Lemma utf_label_sample :
  let r := convert_encoding (detects (Some "utf-8"%string) 0.99)
                            (py_decode no_other) py_encode
                            (one_file "in" [xc4; x85]) "in" "out" "ANSI" in
  decode_attempts (res_trace r) = ["utf-8"%string] ∧
  files (res_world r) !! "out"%string = Some [xb9].
Proof.
  destruct (utf_label_tried_first (detects (Some "utf-8"%string) 0.99)
              (py_decode no_other) py_encode
              (one_file "in" [xc4; x85]) "in" "out" "ANSI" [xc4; x85] "utf-8")
    as (_ & Hok & _); [reflexivity | discriminate | reflexivity | reflexivity |].
  destruct (Hok [0x105] eq_refl) as (Hatt & (_ & Hfiles & _) & _).
  split; [exact Hatt |]. cbv zeta. rewrite Hfiles. apply lookup_insert_eq.
Defined.

Lemma encode_failure_sample :
  let w := one_file "in" zajac_raw in
  let r := convert_encoding (detects None 0) (py_decode no_other) py_encode
                            w "in" "out" "ISO8859_2" in
  res_outcome r = WriteError UnicodeEncodeError ∧
  files (res_world r) !! "out"%string = Some [] ∧
  res_world r ≠ w.
Proof.
  destruct (encode_failure_truncates_output (detects None 0) (py_decode no_other) py_encode
              (one_file "in" zajac_raw) "in" "out" "ISO8859_2" zajac_raw
              [EvDecode "windows-1250"; EvPrint (MsgFallback "windows-1250")]
              zajac_cp1250 "iso8859_2" UnicodeEncodeError)
    as (Ho & Hf & _ & _ & _ & Hne);
    [reflexivity | discriminate | reflexivity | reflexivity | reflexivity
     | apply not_elem_of_empty |].
  cbv zeta. rewrite Hf. split_and!; [exact Ho | apply lookup_insert_eq |].
  apply Hne. discriminate.
Defined.

Lemma invalid_format_sample :
  main (Args (Some "in"%string) (Some "out"%string) (Some "FOO"%string)
             None None "." false None false false false false false)
  = ExitInvalidFormat "FOO" ∧
  res_outcome (convert_encoding (detects None 0) (py_decode no_other) py_encode
                                (one_file "in" zajac_raw) "in" "out" "FOO")
  = WriteError (KeyError "FOO").
Proof.
  destruct (invalid_format_rejected_by_main (detects None 0) (py_decode no_other) py_encode
              (one_file "in" zajac_raw) "in" "out" "FOO" eq_refl eq_refl)
    as (Hmain & _ & Hrun).
  split.
  - apply Hmain; [reflexivity | split; [reflexivity | discriminate]].
  - apply (Hrun zajac_raw [EvDecode "windows-1250"; EvPrint (MsgFallback "windows-1250")]
                zajac_cp1250); [reflexivity | discriminate | reflexivity].
Defined.

Lemma detect_none_sample :
  detect_encoding (detects None 0) (one_file "in" [x81]) "in"
  = inl (PyNone, PyFloat 0).
Proof.
  exact (proj1 (detect_encoding_passes_none_on (detects None 0) (one_file "in" [x81])
                  "in" [x81] eq_refl ltac:(discriminate) eq_refl)).
Defined.

Lemma lookup_error_sample :
  res_outcome (convert_encoding (detects (Some "UTF-7-IMAP"%string) 0.5)
                                (py_decode no_other) py_encode
                                (one_file "in" zajac_raw) "in" "out" "UTF8")
  = Raised LookupError.
Proof.
  destruct (decode_errors_handled_lookup_errors_escape
              (detects (Some "UTF-7-IMAP"%string) 0.5) (py_decode no_other) py_encode
              (one_file "in" zajac_raw) "in" "out" "UTF8" zajac_raw)
    as (_ & Hutf & _); [reflexivity | discriminate |].
  exact (proj1 (Hutf "UTF-7-IMAP"%string eq_refl eq_refl eq_refl)).
Defined.

Lemma first_success_sample :
  let r := convert_encoding (detects None 0) (py_decode no_other) py_encode
                            (one_file "in" [x81]) "in" "out" "UTF8" in
  decode_attempts (res_trace r) = ["windows-1250"; "iso8859_2"]%string ∧
  files (res_world r) !! "out"%string = Some [xc2; x81].
Proof.
  destruct (first_success_wins (detects None 0) (py_decode no_other) py_encode
              None [x81] ["windows-1250"%string] "iso8859_2" [] [0x81])
    as (_ & Hrun & _).
  - apply Forall_cons_2; [left; reflexivity | apply Forall_nil_2].
  - reflexivity.
  - destruct (Hrun (one_file "in" [x81]) "in"%string "out"%string "UTF8"%string)
      as (Hatt & _ & (_ & Hfiles & _) & _);
      [reflexivity | discriminate | reflexivity | reflexivity | reflexivity |].
    split; [exact Hatt |]. cbv zeta. rewrite Hfiles. apply lookup_insert_eq.
Defined.

Lemma round_trip_sample :
  ∃ data, py_encode "cp1250" zajac_text = inl data ∧
          py_decode no_other "cp1250" data = inl zajac_text.
Proof.
  apply (supported_formats_round_trip no_other "ANSI" "cp1250" zajac_text);
    [reflexivity |].
  repeat apply Forall_cons_2; try apply Forall_nil_2;
    first [left; reflexivity | right; set_solver].
Defined.

Lemma legacy_candidates_sample :
  let r := convert_encoding (detects None 0) (py_decode no_other) py_encode
                            (one_file "in" zajac_raw) "in" "out" "ISO8859_2" in
  decode_attempts (res_trace r) = ["windows-1250"%string] ∧
  res_outcome r = WriteError UnicodeEncodeError.
Proof.
  destruct (legacy_candidates_tried_first (detects None 0) (py_decode no_other) py_encode
              (one_file "in" zajac_raw) "in" "out" "ISO8859_2" zajac_raw)
    as (_ & _ & _ & _ & Hex); [reflexivity | discriminate | reflexivity |].
  destruct (Hex no_other) as (_ & _ & Ha & Ho & _);
    [reflexivity | reflexivity | reflexivity | reflexivity | apply not_elem_of_empty |].
  split; [exact Ha | exact Ho].
Defined.

(** ** Where the code departs from the claims *)

(** C1: the run on [b"Zaj\xb1\xe6"] with target ISO8859_2.  The claim
    expects the ISO 8859-2 bytes of "Zająć" in the output; the text decoded
    is another one, the write fails and the output file is empty. *)
Lemma zajac_is_not_reencoded :
  let r := convert_encoding (detects None 0) (py_decode no_other) py_encode
                            (one_file "in" zajac_raw) "in" "out" "ISO8859_2" in
  label_has_utf (det_encoding (detects None 0 zajac_raw)) = false ∧
  py_encode "iso8859_2" zajac_text = inl zajac_raw ∧
  py_decode no_other "windows-1250" zajac_raw = inl zajac_cp1250 ∧
  zajac_cp1250 ≠ zajac_text ∧
  res_outcome r = WriteError UnicodeEncodeError ∧
  files (res_world r) !! "out"%string = Some [].
Proof. cbv zeta. split_and!; [reflexivity.. | discriminate | reflexivity | reflexivity]. Qed.

(** C2: a label with "utf" in it whose decode fails without falling
    through.  The label names no codec of the runtime, the decode call ends
    with [LookupError], and the run ends there, although windows-1250, the
    first candidate of the list, decodes the data. *)
Lemma utf_label_failure_without_fallthrough :
  let r := convert_encoding (detects (Some "utf-8-mac"%string) 0.9)
                            (py_decode no_other) py_encode
                            (one_file "in" zajac_raw) "in" "out" "UTF8" in
  str_in "utf" (lower "utf-8-mac") = true ∧
  py_decode no_other "utf-8-mac" zajac_raw = inr LookupError ∧
  py_decode no_other "windows-1250" zajac_raw = inl zajac_cp1250 ∧
  decode_attempts (res_trace r) = ["utf-8-mac"%string] ∧
  res_outcome r = Raised LookupError ∧
  files (res_world r) !! "out"%string = None.
Proof. cbv zeta. split_and!; reflexivity. Qed.

(** C6: the engine called with a format that is not in the table.  It reads
    the input, decodes it, and for an empty input creates the output
    file. *)
Lemma engine_reads_before_format_lookup :
  let r := convert_encoding (detects None 0) (py_decode no_other) py_encode
                            (one_file "in" zajac_raw) "in" "out" "FOO" in
  let r0 := convert_encoding (detects None 0) (py_decode no_other) py_encode
                             (one_file "in" []) "in" "out" "FOO" in
  SUPPORTED_FORMATS !! upper "FOO" = None ∧
  file_accesses (res_trace r) = ["in"%string] ∧
  decode_attempts (res_trace r) = ["windows-1250"%string] ∧
  res_outcome r = WriteError (KeyError "FOO") ∧
  res_outcome r0 = EmptyCreated ∧
  file_accesses (res_trace r0) = ["in"; "out"]%string ∧
  files (res_world r0) !! "out"%string = Some [].
Proof. cbv zeta. split_and!; reflexivity. Qed.

(** C9: a detector label with "utf" in it that names no codec.  The lookup
    error of the decode call leaves the engine. *)
Lemma unknown_utf_label_raises :
  let r := convert_encoding (detects (Some "UTF-7-IMAP"%string) 0.5)
                            (py_decode no_other) py_encode
                            (one_file "in" zajac_raw) "in" "out" "UTF8" in
  str_in "utf" (lower "UTF-7-IMAP") = true ∧
  py_decode no_other "UTF-7-IMAP" zajac_raw = inr LookupError ∧
  res_outcome r = Raised LookupError ∧
  decode_attempts (res_trace r) = ["UTF-7-IMAP"%string].
Proof. cbv zeta. split_and!; reflexivity. Qed.

Lemma total_failure_unreachable_sample :
  res_outcome (convert_encoding (detects None 0) (py_decode no_other) py_encode
                                (one_file "in" [x81]) "in" "out" "UTF8")
  ≠ AllDecodeFailed.
Proof.
  exact (proj1 (total_failure_unreachable (detects None 0) no_other py_encode
                  (one_file "in" [x81]) "in" "out" "UTF8" [x81]
                  eq_refl ltac:(discriminate))).
Defined.

Lemma main_converts_sample : is_Some (SUPPORTED_FORMATS !! upper "utf8").
Proof.
  apply (main_converts_supported_formats_only
           (Args (Some "in"%string) (Some "out"%string) (Some "utf8"%string)
                 None None "." false None false false false false false)).
  left. by exists "in"%string, "out"%string.
Defined.

Lemma codecs_invert_sample :
  py_decode no_other "utf-16-be" [x01; x05; xd8; x3d; xde; x00] = inl [0x105; 0x1F600].
Proof.
  apply (codecs_invert_their_encoders no_other "utf-16-be" Utf16BE); reflexivity.
Defined.

(** ** What a conversion touches and what it leaves *)

Section Effects.

Variable chardet_detect : bytes -> detection.
Variable decode : string -> bytes -> text + exn.
Variable encode : string -> text -> bytes + exn.


Lemma write_output_saved w file_out fmt t :
  res_outcome (write_output encode w file_out fmt t) = Saved →
  ∃ codec data,
    SUPPORTED_FORMATS !! fmt = Some codec ∧
    encode codec t = inl data ∧
    files (res_world (write_output encode w file_out fmt t))
    = <[file_out := data]> (files w).
Proof.
  unfold write_output, open_write.
  destruct (SUPPORTED_FORMATS !! fmt) as [codec|]; [|done].
  case_decide; [done |]. destruct (encode codec t) as [data|] eqn:He; [|done].
  intros _. exists codec, data. cbn. by rewrite insert_insert_eq.
Qed.



(** X5: when a run ends with "Saved", the input was readable and not empty,
    the decoding steps produced a text, the format names a codec of the
    table, and the output file holds exactly the bytes that this codec gives
    for that text, whatever the file held before. *)
Theorem saved_output_is_the_encoded_text w file_in file_out target_format :
  let r := convert_encoding chardet_detect decode encode
                            w file_in file_out target_format in
  res_outcome r = Saved →
  ∃ raw tr t codec data,
    files w !! file_in = Some raw ∧
    raw ≠ [] ∧
    decode_stage decode (det_encoding (chardet_detect raw)) raw = (tr, inr (Some t)) ∧
    SUPPORTED_FORMATS !! upper target_format = Some codec ∧
    encode codec t = inl data ∧
    files (res_world r) = <[file_out := data]> (files w).
Proof.
  cbv zeta. destruct (files w !! file_in) as [raw|] eqn:Hin.
  - destruct (decide (raw = [])) as [-> | Hraw].
    + unfold convert_encoding, open_read. rewrite Hin. by destruct open_write.
    + rewrite (convert_nonempty _ _ _ _ _ _ _ raw) by done. cbv zeta.
      destruct decode_stage as [tr [e | [t|]]] eqn:Hst; [done | | done].
      cbn [prepend res_outcome res_world]. intros Hs.
      destruct (write_output_saved _ _ _ _ Hs) as (codec & data & Hc & He & Hf).
      by exists raw, tr, t, codec, data.
  - unfold convert_encoding, open_read. by rewrite Hin.
Qed.

(** X6: converting a file onto itself, with an ASCII format name and data
    that a candidate decodes.  After the run the file holds the new encoding
    of its text if the run ends with "Saved"; it is unchanged if the format
    name is not in the table; and it is left empty, its content lost, if the
    target codec cannot encode the decoded text. *)
Theorem in_place_conversion w file target_format raw tr t :
  isascii target_format = true →
  files w !! file = Some raw →
  raw ≠ [] →
  file ∉ locked w →
  decode_stage decode (det_encoding (chardet_detect raw)) raw = (tr, inr (Some t)) →
  let r := convert_encoding chardet_detect decode encode
                            w file file target_format in
  match SUPPORTED_FORMATS !! upper target_format with
  | None => res_outcome r = WriteError (KeyError (upper target_format)) ∧
            files (res_world r) !! file = Some raw
  | Some codec =>
    match encode codec t with
    | inl data => res_outcome r = Saved ∧ files (res_world r) !! file = Some data
    | inr e => res_outcome r = WriteError e ∧ files (res_world r) !! file = Some []
    end
  end.
Proof.
  intros _ Hin Hraw Hlock Hst. cbv zeta.
  rewrite (convert_nonempty _ _ _ _ _ _ _ raw) by done. cbv zeta. rewrite Hst.
  unfold write_output, open_write.
  destruct (SUPPORTED_FORMATS !! upper target_format) as [codec|]; [|done].
  rewrite decide_False by done.
  destruct (encode codec t) as [data | e]; cbn; by rewrite lookup_insert_eq.
Qed.

End Effects.

(** ** Conversions with the runtime's codecs *)

Lemma charmap_encode_ascii high raw :
  ascii_bytes raw → charmap_encode high (map Byte.to_N raw) = inl raw.
Proof.
  intros Hraw. unfold charmap_encode.
  assert (mapM (charmap_encode_char high) (map Byte.to_N raw) = Some raw) as ->; [|done].
  apply mapM_Some. induction Hraw as [|b raw Hb _ IH]; constructor; [|done].
  unfold charmap_encode_char. apply N.ltb_lt in Hb as ->. by rewrite byte_of_to_N.
Qed.

Lemma utf8_encode_ascii raw :
  ascii_bytes raw → utf8_encode (map Byte.to_N raw) = inl raw.
Proof.
  intros Hraw. unfold utf8_encode.
  assert (mapM utf8_encode_char (map Byte.to_N raw) = Some (map (fun b => [b]) raw))
    as ->.
  { apply mapM_Some. induction Hraw as [|b raw Hb _ IH]; constructor; [|done].
    unfold utf8_encode_char. apply N.ltb_lt in Hb as ->. by rewrite byte_of_to_N. }
  f_equal. clear Hraw. induction raw as [|b raw IH]; [done |]. cbn. f_equal. apply IH.
Qed.

Lemma utf16_encode_ascii be raw :
  ascii_bytes raw →
  utf16_encode be (map Byte.to_N raw)
  = inl (concat (map (fun b => if be then [x00; b] else [b; x00]) raw)).
Proof.
  intros Hraw. unfold utf16_encode.
  assert (mapM utf16_units (map Byte.to_N raw) = Some (map (fun b => [Byte.to_N b]) raw))
    as ->.
  { apply mapM_Some. induction Hraw as [|b raw Hb _ IH]; constructor; [|done].
    unfold utf16_units, is_surrogate.
    destruct (N.leb_spec 0xD800 (Byte.to_N b)); [lia |]. cbn [andb].
    destruct (N.ltb_spec (Byte.to_N b) 0x10000); [done | lia]. }
  f_equal. induction Hraw as [|b raw Hb _ IH]; [done |].
  cbn [map concat app]. rewrite IH. unfold unit_bytes.
  rewrite N.mod_small, N.div_small by lia. rewrite byte_of_to_N.
  by destruct be.
Qed.

Lemma ascii_run chardet_detect other encode w file_in file_out target_format raw :
  files w !! file_in = Some raw →
  raw ≠ [] →
  ascii_bytes raw →
  label_has_utf (det_encoding (chardet_detect raw)) = false →
  ∃ tr, convert_encoding chardet_detect (py_decode other) encode
                         w file_in file_out target_format
        = prepend tr (write_output encode w file_out (upper target_format)
                                   (map Byte.to_N raw)).
Proof.
  intros Hin Hraw Hascii Hutf.
  rewrite (convert_nonempty _ _ _ _ _ _ _ raw) by done. cbv zeta.
  rewrite decode_stage_no_utf by done.
  assert (∃ rest, encodings_to_try (det_encoding (chardet_detect raw))
                  = "windows-1250"%string :: rest) as [rest ->].
  { unfold encodings_to_try. destruct det_encoding; [destruct (_ && _) |]; by eexists. }
  cbn [decode_loop].
  change (py_decode other "windows-1250" raw) with (charmap_decode cp1250_high raw).
  rewrite charmap_decode_ascii by done. by eexists.
Qed.

(** X7: a file of pure ASCII whose label has no "utf" in it comes out of a
    conversion to UTF8, UTF8WBOM, ANSI or ISO8859_2 with the same bytes; to
    UTF8BOM with the three signature bytes in front; to UTF16LE and UTF16BE
    with a zero byte after, respectively before, each byte. *)
Theorem ascii_file_conversions chardet_detect other w file_in file_out target_format raw :
  files w !! file_in = Some raw →
  raw ≠ [] →
  ascii_bytes raw →
  label_has_utf (det_encoding (chardet_detect raw)) = false →
  file_out ∉ locked w →
  let r := convert_encoding chardet_detect (py_decode other) py_encode
                            w file_in file_out target_format in
  let written := fun data =>
    res_outcome r = Saved ∧ files (res_world r) = <[file_out := data]> (files w) in
  (upper target_format ∈ ["UTF8"; "UTF8WBOM"; "ANSI"; "ISO8859_2"]%string →
   written raw) ∧
  (upper target_format = "UTF8BOM"%string → written (BOM_UTF8 ++ raw)) ∧
  (upper target_format = "UTF16LE"%string →
   written (concat (map (fun b => [b; x00]) raw))) ∧
  (upper target_format = "UTF16BE"%string →
   written (concat (map (fun b => [x00; b]) raw))).
Proof.
  intros Hin Hraw Hascii Hutf Hout r written. subst r written.
  destruct (ascii_run chardet_detect other py_encode w file_in file_out target_format raw)
    as [tr ->]; [done.. |].
  cbn [prepend res_outcome res_world].
  assert (∀ codec data,
             SUPPORTED_FORMATS !! upper target_format = Some codec →
             py_encode codec (map Byte.to_N raw) = inl data →
             res_outcome (write_output py_encode w file_out (upper target_format)
                                       (map Byte.to_N raw)) = Saved ∧
             files (res_world (write_output py_encode w file_out (upper target_format)
                                            (map Byte.to_N raw)))
             = <[file_out := data]> (files w)) as Hw.
  { intros codec data Hc He. unfold write_output, open_write.
    rewrite Hc, decide_False, He by done. cbn. by rewrite insert_insert_eq. }
  split_and!.
  - intros Hf. repeat (apply elem_of_cons in Hf as [Hf | Hf]).
    + apply (Hw "utf-8"%string); [by rewrite Hf |]. by apply utf8_encode_ascii.
    + apply (Hw "utf-8"%string); [by rewrite Hf |]. by apply utf8_encode_ascii.
    + apply (Hw "cp1250"%string); [by rewrite Hf |]. by apply charmap_encode_ascii.
    + apply (Hw "iso8859_2"%string); [by rewrite Hf |]. by apply charmap_encode_ascii.
    + by apply elem_of_nil in Hf.
  - intros Hf. apply (Hw "utf-8-sig"%string); [by rewrite Hf |].
    change (py_encode "utf-8-sig" (map Byte.to_N raw))
      with (utf8_sig_encode (map Byte.to_N raw)).
    unfold utf8_sig_encode. by rewrite utf8_encode_ascii.
  - intros Hf. apply (Hw "utf-16-le"%string); [by rewrite Hf |].
    by apply (utf16_encode_ascii false).
  - intros Hf. apply (Hw "utf-16-be"%string); [by rewrite Hf |].
    by apply (utf16_encode_ascii true).
Qed.

Lemma cp1250_undefined_spec b :
  charmap_decode_byte cp1250_high b = None ↔ b ∈ cp1250_undefined.
Proof.
  unfold cp1250_undefined. split.
  - destruct b; cbn; try discriminate; intros _; set_solver.
  - intros H. repeat (apply elem_of_cons in H as [-> | H]; [reflexivity |]).
    by apply elem_of_nil in H.
Qed.

Lemma cp1250_decodes raw :
  Forall (fun b => b ∉ cp1250_undefined) raw →
  ∃ t, charmap_decode cp1250_high raw = inl t ∧
       Forall2 (fun b c => charmap_decode_byte cp1250_high b = Some c) raw t.
Proof.
  intros Hraw. unfold charmap_decode.
  destruct (mapM (charmap_decode_byte cp1250_high) raw) as [t|] eqn:Hm.
  - exists t. split; [done | by apply mapM_Some].
  - apply mapM_None, Exists_exists in Hm as (b & Hb & Hnone).
    apply cp1250_undefined_spec in Hnone.
    by eapply Forall_forall in Hraw.
Qed.

Lemma cp1250_rejects raw :
  Exists (fun b => b ∈ cp1250_undefined) raw →
  charmap_decode cp1250_high raw = inr UnicodeDecodeError.
Proof.
  intros Hraw. unfold charmap_decode.
  assert (mapM (charmap_decode_byte cp1250_high) raw = None) as ->; [|done].
  apply mapM_None. eapply Exists_impl; [exact Hraw |].
  intros b. apply cp1250_undefined_spec.
Qed.

(** X8: which of the two legacy candidates decodes a file whose label has no
    "utf" in it.  windows-1250 fails on exactly five bytes, 0x81, 0x83, 0x88,
    0x90 and 0x98: a file without any of them is decoded by windows-1250
    alone, a file with one of them by iso8859_2 after windows-1250 failed. *)
Theorem legacy_pair_decides chardet_detect other encode
    w file_in file_out target_format raw :
  files w !! file_in = Some raw →
  raw ≠ [] →
  label_has_utf (det_encoding (chardet_detect raw)) = false →
  let r := convert_encoding chardet_detect (py_decode other) encode
                            w file_in file_out target_format in
  (∀ b, py_decode other "windows-1250" [b] = inr UnicodeDecodeError ↔
        b ∈ cp1250_undefined) ∧
  (Forall (fun b => b ∉ cp1250_undefined) raw →
   decode_attempts (res_trace r) = ["windows-1250"%string]) ∧
  (Exists (fun b => b ∈ cp1250_undefined) raw →
   decode_attempts (res_trace r) = ["windows-1250"; "iso8859_2"]%string).
Proof.
  intros Hin Hraw Hutf r. subst r.
  rewrite (convert_attempts _ _ _ _ _ _ _ raw) by done.
  rewrite decode_stage_no_utf by done.
  assert (∃ rest, encodings_to_try (det_encoding (chardet_detect raw))
                  = ("windows-1250" :: "iso8859_2" :: rest)%string) as [rest ->].
  { unfold encodings_to_try. destruct det_encoding; [destruct (_ && _) |]; by eexists. }
  cbn [decode_loop].
  change (py_decode other "windows-1250" raw) with (charmap_decode cp1250_high raw).
  change (py_decode other "iso8859_2" raw) with (charmap_decode iso8859_2_high raw).
  split_and!.
  - intros b. rewrite <- cp1250_undefined_spec.
    change (py_decode other "windows-1250" [b]) with (charmap_decode cp1250_high [b]).
    unfold charmap_decode. cbn.
    destruct (charmap_decode_byte cp1250_high b); cbn; split; done.
  - intros Hdef. by destruct (cp1250_decodes raw Hdef) as (t & -> & _).
  - intros Hundef. rewrite (cp1250_rejects raw Hundef).
    by destruct (iso8859_2_total raw) as [t ->].
Qed.

Lemma cp1250_char_inverse b c :
  charmap_decode_byte cp1250_high b = Some c →
  charmap_encode_char cp1250_high c = Some b ∧ is_Some (utf8_encode_char c).
Proof. destruct b; cbn; intros [= <-]; split; by eexists. Qed.

Lemma cp1250_text_inverse raw t :
  Forall2 (fun b c => charmap_decode_byte cp1250_high b = Some c) raw t →
  charmap_encode cp1250_high t = inl raw ∧
  ∃ data, utf8_encode t = inl data ∧ (raw ≠ [] → data ≠ []).
Proof.
  intros H. split.
  - unfold charmap_encode.
    assert (mapM (charmap_encode_char cp1250_high) t = Some raw) as ->; [|done].
    apply mapM_Some, Forall2_flip. eapply Forall2_impl; [exact H |].
    intros b c Hbc. by apply cp1250_char_inverse.
  - unfold utf8_encode.
    destruct (mapM_is_Some_2 utf8_encode_char t) as [bss Hbss].
    { eapply Forall2_Forall_r; [exact H |]. apply Forall_forall.
      intros b _ c Hbc. by apply cp1250_char_inverse in Hbc as [_ ?]. }
    rewrite Hbss. eexists. split; [done |].
    intros Hraw. destruct H as [|b c raw t Hbc H]; [done |].
    apply mapM_Some in Hbss. inversion Hbss as [|? bs ? bss' Hc Hrest]; subst.
    cbn [concat]. unfold utf8_encode_char in Hc.
    repeat (destruct (_ <? _) || destruct (is_surrogate _));
      try discriminate; by injection Hc as <-.
Qed.

(** X9: conversion to UTF-8 and back.  A file whose label has no "utf" in
    it and that windows-1250 decodes is converted to UTF8 (or UTF8WBOM); if
    the detector then recognises the result as "utf-8", converting that
    result to ANSI gives a file with the bytes of the original. *)
Theorem utf8_and_back_restores_bytes
    chardet_detect other w file_in file_mid file_back to_utf8 to_ansi raw :
  files w !! file_in = Some raw →
  raw ≠ [] →
  Forall (fun b => b ∉ cp1250_undefined) raw →
  label_has_utf (det_encoding (chardet_detect raw)) = false →
  upper to_utf8 ∈ ["UTF8"; "UTF8WBOM"]%string →
  upper to_ansi = "ANSI"%string →
  file_mid ∉ locked w →
  file_back ∉ locked w →
  let r1 := convert_encoding chardet_detect (py_decode other) py_encode
                             w file_in file_mid to_utf8 in
  (∀ data, files (res_world r1) !! file_mid = Some data →
           det_encoding (chardet_detect data) = Some "utf-8"%string) →
  let r2 := convert_encoding chardet_detect (py_decode other) py_encode
                             (res_world r1) file_mid file_back to_ansi in
  res_outcome r1 = Saved ∧
  res_outcome r2 = Saved ∧
  files (res_world r2) !! file_back = Some raw.
Proof.
  intros Hin Hraw Hdef Hutf Hfmt1 Hfmt2 Hmid Hback r1 Hdet r2.
  destruct (cp1250_decodes raw Hdef) as (t & Hdec & Hchars).
  destruct (cp1250_text_inverse raw t Hchars) as (Henc & data & Hdata & Hne).
  assert (SUPPORTED_FORMATS !! upper to_utf8 = Some "utf-8"%string) as Hc1.
  { repeat (apply elem_of_cons in Hfmt1 as [-> | Hfmt1]; [done |]).
    by apply elem_of_nil in Hfmt1. }
  assert (res_outcome r1 = Saved ∧
          res_world r1 = World (<[file_mid := data]> (files w)) (refused w) (closed w))
    as [Ho1 Hw1].
  { subst r1. rewrite (convert_nonempty _ _ _ _ _ _ _ raw) by done. cbv zeta.
    rewrite decode_stage_no_utf by done.
    assert (∃ rest, encodings_to_try (det_encoding (chardet_detect raw))
                    = "windows-1250"%string :: rest) as [rest ->].
    { unfold encodings_to_try. destruct det_encoding; [destruct (_ && _) |]; by eexists. }
    cbn [decode_loop].
    change (py_decode other "windows-1250" raw) with (charmap_decode cp1250_high raw).
    rewrite Hdec. cbn [prepend res_outcome res_world].
    unfold write_output, open_write. rewrite Hc1, decide_False by done.
    change (py_encode "utf-8" t) with (utf8_encode t). rewrite Hdata.
    cbn [res_outcome res_world]. unfold write_bytes. cbn [files refused closed].
    by rewrite insert_insert_eq. }
  split; [done |].
  assert (files (res_world r1) !! file_mid = Some data) as Hmid1.
  { rewrite Hw1. cbn. apply lookup_insert_eq. }
  specialize (Hdet data Hmid1).
  subst r2. rewrite (convert_nonempty _ _ _ _ _ _ _ data) by auto. cbv zeta.
  rewrite Hdet, (decode_stage_utf_ok _ _ _ t); [|done |].
  - cbn [prepend res_outcome res_world]. unfold write_output, open_write.
    rewrite Hfmt2. change (SUPPORTED_FORMATS !! "ANSI"%string) with (Some "cp1250"%string).
    cbv iota. rewrite decide_False by by rewrite Hw1.
    change (py_encode "cp1250" t) with (charmap_encode cp1250_high t). rewrite Henc.
    cbn. split; [done |]. apply lookup_insert_eq.
  - change (py_decode other "utf-8" data) with (utf8_decode data).
    by apply utf8_roundtrip.
Qed.

(** ** Output names *)

Module PathFacts.
Import OsPath.

Lemma str_app_cons c s1 s2 : String c s1 +:+ s2 = String c (s1 +:+ s2).
Proof. reflexivity. Qed.

Lemma str_take_drop n s : str_take n s +:+ str_drop n s = s.
Proof.
  revert s. induction n as [|n IH]; intros [|c s]; cbn; try done.
  by rewrite str_app_cons, IH.
Qed.

Lemma str_length_app s1 s2 :
  String.length (s1 +:+ s2) = (String.length s1 + String.length s2)%nat.
Proof.
  induction s1 as [|c s1 IH]; [done |].
  rewrite str_app_cons. cbn. by rewrite IH.
Qed.

Lemma splitext_join p : (splitext p).1 +:+ (splitext p).2 = p.
Proof.
  unfold splitext. destruct (_ && _); cbn [fst snd].
  - apply str_take_drop.
  - induction p as [|c p IH]; [done | by rewrite str_app_cons, IH].
Qed.

(** The characters of a string. *)
Lemma rfind_from_spec c s i last :
  (rfind_from c s i last = last ∧ c ∉ list_ascii_of_string s) ∨
  (∃ k, rfind_from c s i last = (i + Z.of_nat k)%Z ∧
        String.get k s = Some c ∧
        c ∉ list_ascii_of_string (str_drop (S k) s)).
Proof.
  revert i last. induction s as [|d s IH]; intros i last; cbn [rfind_from].
  - left. split; [done |]. cbn. apply not_elem_of_nil.
  - destruct (IH (i + 1)%Z (if Ascii.eqb d c then i else last))
      as [[Hr Hnot] | (k & Hr & Hget & Hnot)].
    + destruct (Ascii.eqb_spec d c) as [-> | Hne].
      * right. exists 0%nat. rewrite Hr. split_and!; [lia | done | done].
      * left. split; [done |]. cbn. set_solver.
    + right. exists (S k). rewrite Hr. split_and!; [lia | done | done].
Qed.

Lemma get_drop k s c :
  String.get k s = Some c → str_drop k s = String c (str_drop (S k) s).
Proof.
  revert s. induction k as [|k IH]; intros [|d s]; cbn; try done.
  - by intros [= ->].
  - apply IH.
Qed.

Lemma drop_drop n k s : str_drop n (str_drop k s) = str_drop (k + n) s.
Proof.
  revert s. induction k as [|k IH]; intros s; cbn; [done |].
  destruct s as [|c s]; [by destruct n | apply IH].
Qed.

Lemma chars_drop c n s :
  c ∉ list_ascii_of_string s → c ∉ list_ascii_of_string (str_drop n s).
Proof.
  revert s. induction n as [|n IH]; intros [|d s]; cbn; try done.
  intros H. apply IH. set_solver.
Qed.

Lemma new_name_length suffix fname :
  String.length (new_name suffix fname)
  = (String.length fname + 1 + String.length suffix)%nat.
Proof.
  unfold new_name. rewrite <- (splitext_join fname) at 2.
  destruct (splitext fname) as [base extension]. cbn [fst snd].
  rewrite !str_length_app. cbn. lia.
Qed.

Lemma new_name_differs suffix fname : new_name suffix fname ≠ fname.
Proof.
  intros Heq. pose proof (new_name_length suffix fname) as Hlen.
  rewrite Heq in Hlen. lia.
Qed.

(** X10: the name given to the output of a file.  [splitext] cuts the name
    in two parts that put together give the name again; the second part is
    empty or a dot followed by characters that are neither a dot nor a
    slash; the output name is the first part, an underscore, the suffix and
    the second part, and it is never the name of the input itself. *)
Theorem output_name_keeps_extension suffix fname :
  let base := (splitext fname).1 in
  let extension := (splitext fname).2 in
  base +:+ extension = fname ∧
  (extension = EmptyString ∨
   ∃ e, extension = String "." e ∧
        "."%char ∉ list_ascii_of_string e ∧
        "/"%char ∉ list_ascii_of_string e) ∧
  new_name suffix fname = base +:+ "_" +:+ suffix +:+ extension ∧
  String.length (new_name suffix fname)
  = (String.length fname + 1 + String.length suffix)%nat ∧
  new_name suffix fname ≠ fname.
Proof.
  cbv zeta.
  assert (new_name suffix fname
          = (splitext fname).1 +:+ "_" +:+ suffix +:+ (splitext fname).2) as Hname.
  { unfold new_name. by destruct (splitext fname). }
  split_and!; [apply splitext_join | | done | apply new_name_length
               | apply new_name_differs].
  - unfold splitext.
    destruct (Z.ltb_spec (rfind "/" fname) (rfind "." fname)) as [Hlt | Hge];
      [|by left].
    destruct has_non_dot; [|by left]. cbn [andb snd]. right.
    unfold rfind in *.
    destruct (rfind_from_spec "." fname 0 (-1)) as [[Hd _] | (k & Hd & Hget & Hnodot)].
    { destruct (rfind_from_spec "/" fname 0 (-1)) as [[Hs _] | (j & Hs & _)]; lia. }
    rewrite Hd. replace (Z.to_nat (0 + Z.of_nat k)) with k by lia.
    exists (str_drop (S k) fname). split_and!; [by apply get_drop | done |].
    destruct (rfind_from_spec "/" fname 0 (-1)) as [[_ Hno] | (j & Hs & _ & Hno)].
    + by apply chars_drop.
    + replace (S k) with (S j + (k - j))%nat by lia.
      rewrite <- drop_drop. by apply chars_drop.
Qed.

End PathFacts.

(** ** Batches and the command line *)

Section BatchFacts.

Variable chardet_detect : bytes -> detection.
Variable decode : string -> bytes -> text + exn.
Variable encode : string -> text -> bytes + exn.
Variable get_files : world -> string -> string -> bool -> list string.
Variable user_input : string -> input_result.



Lemma output_map_names sfx (found : list string) :
  map snd (map (fun fname => (fname, new_name sfx fname)) found)
  = map (new_name sfx) found.
Proof. by rewrite map_map. Qed.

(** X11: when some output file of the batch already exists, [--overwrite]
    is not given and the answer to the question is anything but a line that
    reads "y" once stripped and lower-cased, the batch converts nothing: no
    call of [convert_encoding] is made and the file system is as before.
    The files listed with the question are the existing outputs. *)
Theorem batch_declined_changes_nothing w ext target_format suffix base_dir recursive :
  let found := get_files w (OsPath.lstrip_by (Ascii.eqb ".") ext) base_dir recursive in
  let outputs := map (new_name (or_default suffix (upper target_format))) found in
  let existing := List.filter (path_exists w) outputs in
  existing ≠ [] →
  (∀ line, user_input batch_prompt = Typed line → declined line = true) →
  let b := process_all chardet_detect decode encode get_files user_input
                       w ext target_format suffix base_dir recursive false in
  batch_world b = w ∧
  batch_runs b = [] ∧
  batch_prompted b = Some existing ∧
  batch_outcome_of b ≠ BatchComplete.
Proof.
  intros found outputs existing. subst existing outputs found.
  intros Hex Hans b. subst b. unfold process_all.
  destruct (get_files w _ base_dir recursive) as [|f found]; [done |].
  rewrite output_map_names.
  destruct (List.filter _ _) as [|x existing]; [done |]. cbn [negb].
  destruct (user_input batch_prompt) as [line | |]; [|done..].
  by rewrite (Hans line eq_refl).
Qed.



End BatchFacts.

Section MainFacts.

Variable chardet_detect : bytes -> detection.
Variable decode : string -> bytes -> text + exn.
Variable encode : string -> text -> bytes + exn.
Variable get_files : world -> string -> string -> bool -> list string.
Variable user_input : string -> input_result.

Lemma truthy_arg o s : o = Some s → s ≠ EmptyString → truthy o = true ∧ arg o = s.
Proof. intros -> Hs. by destruct s. Qed.

Lemma supported_nonempty fmt :
  is_Some (SUPPORTED_FORMATS !! upper fmt) → fmt ≠ EmptyString.
Proof. intros [codec H] ->. done. Qed.

(** X14: a single-file conversion with an explicit output ([-i], [-o] and a
    supported [--format], no [--show] and no [--all]) makes one call of
    [convert_encoding] with the names as given.  No question is asked, with
    or without [--overwrite] and whether or not the output file exists. *)
Theorem explicit_output_is_never_asked_about w a file_in file_out fmt :
  help a = false →
  truthy (show_ext a) = false →
  truthy (ext a) = false →
  input_file a = Some file_in →
  file_in ≠ EmptyString →
  output_file a = Some file_out →
  file_out ≠ EmptyString →
  format a = Some fmt →
  is_Some (SUPPORTED_FORMATS !! upper fmt) →
  let r := convert_encoding chardet_detect decode encode w file_in file_out fmt in
  let m := run_main chardet_detect decode encode get_files user_input w a in
  main_prompted m = false ∧
  main_runs m = [r] ∧
  main_world m = res_world r.
Proof.
  intros Hhelp Hshow Hext Hin Hin' Hout Hout' Hfmt Hsup. cbv zeta.
  destruct (truthy_arg _ _ Hin Hin') as [Ti Ai].
  destruct (truthy_arg _ _ Hout Hout') as [To Ao].
  destruct (truthy_arg _ _ Hfmt (supported_nonempty _ Hsup)) as [Tf Af].
  unfold run_main, main.
  rewrite Hhelp, Hshow, Hext, Ti, To, Tf, Ai, Ao, Af. cbn [andb].
  rewrite bool_decide_eq_false_2 by by apply not_eq_None_Some.
  done.
Qed.

(** X15: a single-file conversion without [-o].  The output name is derived
    from the input name and is never the input name itself.  The question
    is asked exactly when something exists at the output name, a file or a
    directory, and [--overwrite] is not given.  Without a question, and
    after the answer "y", one call of [convert_encoding] is made, from the
    input to the derived name; after any other answer, an interrupt or the
    end of the input no call is made and the file system is as it was. *)
Theorem auto_named_conversion w a file_in fmt :
  help a = false →
  truthy (show_ext a) = false →
  truthy (ext a) = false →
  input_file a = Some file_in →
  file_in ≠ EmptyString →
  truthy (output_file a) = false →
  format a = Some fmt →
  is_Some (SUPPORTED_FORMATS !! upper fmt) →
  let auto_output := new_name (upper fmt) file_in in
  let m := run_main chardet_detect decode encode get_files user_input w a in
  let r := convert_encoding chardet_detect decode encode w file_in auto_output fmt in
  let converted := main_runs m = [r] ∧ main_world m = res_world r in
  let untouched := main_runs m = [] ∧ main_world m = w in
  auto_output ≠ file_in ∧
  main_prompted m = path_exists w auto_output && negb (overwrite a) ∧
  (main_prompted m = false → converted) ∧
  (main_prompted m = true →
   match user_input (single_prompt auto_output) with
   | Typed line => if declined line then untouched else converted
   | KeyboardInterrupt | EOFError => untouched
   end).
Proof.
  intros Hhelp Hshow Hext Hin Hin' Hout Hfmt Hsup. cbv zeta.
  destruct (truthy_arg _ _ Hin Hin') as [Ti Ai].
  destruct (truthy_arg _ _ Hfmt (supported_nonempty _ Hsup)) as [Tf Af].
  set (auto_output := new_name (upper fmt) file_in).
  assert (run_main chardet_detect decode encode get_files user_input w a
          = run_action chardet_detect decode encode get_files user_input w
                       (ConvertAutoNamed file_in fmt (overwrite a))) as ->.
  { unfold run_main, main.
    rewrite Hhelp, Hshow, Hext, Ti, Hout, Tf, Ai, Af. cbn [andb negb].
    by rewrite bool_decide_eq_false_2 by by apply not_eq_None_Some. }
  cbn [run_action]. fold auto_output.
  split_and!.
  - apply PathFacts.new_name_differs.
  - destruct (path_exists w auto_output && negb (overwrite a));
      [destruct (user_input _) as [line | |]; [destruct (declined line) |..] |]; done.
  - destruct (path_exists w auto_output && negb (overwrite a));
      [destruct (user_input _) as [line | |]; [destruct (declined line) |..] |]; done.
  - destruct (path_exists w auto_output && negb (overwrite a)); [|done].
    intros _. destruct (user_input _) as [line | |]; [destruct (declined line) |..]; done.
Qed.

(** X16: without a usable format nothing is converted.  When [--help] is
    given, when there is no [--format], or when its name is an ASCII string
    that is not in the format table once upper-cased, [main] makes no call
    of [convert_encoding], asks no question and leaves the file system as it
    was. *)
Theorem no_conversion_without_format w a :
  help a = true ∨
  truthy (format a) = false ∨
  (isascii (arg (format a)) = true ∧
   SUPPORTED_FORMATS !! upper (arg (format a)) = None) →
  let m := run_main chardet_detect decode encode get_files user_input w a in
  main_world m = w ∧ main_runs m = [] ∧ main_prompted m = false.
Proof.
  intros H. cbv zeta. unfold run_main, main.
  destruct (help a); [done |].
  destruct H as [? | [Hf | [_ Hk]]]; [done | |].
  - rewrite Hf. cbn [andb negb].
    destruct (truthy (show_ext a)); [done |].
    destruct (truthy (ext a)); [done |].
    destruct (truthy (input_file a)); [|done].
    rewrite andb_false_r. by destruct (negb _).
  - destruct (truthy (format a)); cbn [andb negb].
    + by rewrite bool_decide_eq_true_2.
    + destruct (truthy (show_ext a)); [done |].
      destruct (truthy (ext a)); [done |].
      destruct (truthy (input_file a)); [|done].
      rewrite andb_false_r. by destruct (negb _).
Qed.

End MainFacts.

(** ** The listing *)

Section ListingFacts.

Variable chardet_detect : bytes -> detection.
Variable get_files : world -> string -> string -> bool -> list string.
Variable format_size : nat -> string.
Variable ctime_of : world -> string -> string.
Variable percent : pyval -> string.

Lemma detect_encoding_returns w fname :
  ∃ encoding conf, detect_encoding chardet_detect w fname = inl (encoding, conf).
Proof.
  unfold detect_encoding, open_read.
  destruct (files w !! fname) as [[|b data]|]; by do 2 eexists.
Qed.

Lemma dict_append_perm dir_path f d :
  concat (map snd (dict_append dir_path f d)) ≡ₚ concat (map snd d) ++ [f].
Proof.
  induction d as [|[k l] rest IH]; cbn [dict_append map snd concat]; [done |].
  destruct (String.eqb k dir_path); cbn [map snd concat].
  - by rewrite <- !app_assoc, (Permutation_app_comm [f]).
  - by rewrite IH, app_assoc.
Qed.

Lemma group_by_dir_perm found d :
  concat (map snd (group_by_dir found d)) ≡ₚ concat (map snd d) ++ found.
Proof.
  revert d. induction found as [|f rest IH]; intros d; cbn [group_by_dir].
  - by rewrite app_nil_r.
  - rewrite IH, dict_append_perm, <- app_assoc. done.
Qed.

Lemma insert_item_perm x l : insert_item x l ≡ₚ x :: l.
Proof.
  induction l as [|y rest IH]; cbn [insert_item]; [done |].
  destruct (String.leb x.1 y.1); [done |]. rewrite IH. apply Permutation_swap.
Qed.

Lemma sorted_items_perm l : sorted_items l ≡ₚ l.
Proof.
  induction l as [|x rest IH]; cbn [sorted_items]; [done |].
  by rewrite insert_item_perm, IH.
Qed.

Lemma dict_append_keys dir_path f d :
  map fst (dict_append dir_path f d)
  = if bool_decide (dir_path ∈ map fst d) then map fst d else map fst d ++ [dir_path].
Proof.
  induction d as [|[k l] rest IH]; cbn [dict_append map fst]; [done |].
  destruct (String.eqb_spec k dir_path) as [-> | Hne]; cbn [map fst].
  - rewrite bool_decide_eq_true_2; [done | set_solver].
  - rewrite IH. case_bool_decide as Hin.
    + rewrite bool_decide_eq_true_2; [done | set_solver].
    + rewrite bool_decide_eq_false_2; [done | set_solver].
Qed.

Lemma dict_append_grouped f d :
  grouped d → grouped (dict_append (listed_dir f) f d).
Proof.
  intros [Hnd Hall]. split.
  - rewrite dict_append_keys. case_bool_decide as Hin; [done |].
    apply NoDup_app. split_and!; [done | set_solver | apply NoDup_singleton].
  - clear Hnd. induction Hall as [|[k l] rest [Hne Hl] Hrest IH];
      cbn [dict_append].
    + constructor; [split; [done | by repeat constructor] | constructor].
    + destruct (String.eqb_spec k (listed_dir f)) as [-> | Hk].
      * constructor; [|done]. cbn [fst snd] in *. split; [by destruct l |].
        apply Forall_app. split; [done | by constructor].
      * by constructor.
Qed.

Lemma group_by_dir_grouped found d :
  grouped d → grouped (group_by_dir found d).
Proof.
  revert d. induction found as [|f rest IH]; intros d Hd; cbn [group_by_dir]; [done |].
  apply IH. by apply dict_append_grouped.
Qed.

Lemma grouped_perm d d' : d ≡ₚ d' → grouped d → grouped d'.
Proof.
  intros Hp [Hnd Hall]. split.
  - by rewrite <- Hp.
  - by rewrite <- Hp.
Qed.

Lemma max_list_with_snoc {A} (f : A → nat) l x :
  max_list_with f (l ++ [x]) = Nat.max (max_list_with f l) (f x).
Proof. induction l as [|y l IH]; cbn; [lia | rewrite IH; lia]. Qed.

Lemma sum_list_with_snoc {A} (f : A → nat) l x :
  sum_list_with f (l ++ [x]) = (sum_list_with f l + f x)%nat.
Proof. rewrite sum_list_with_app. cbn. lia. Qed.

Lemma scan_file_scanned w show_stats fixed_width files0 size0 l fname st :
  scanned w show_stats fixed_width files0 size0 l st →
  ∃ st', scan_file chardet_detect format_size ctime_of percent
                   w show_stats fixed_width fname st = inl st' ∧
         scanned w show_stats fixed_width files0 size0 (l ++ [fname]) st'.
Proof.
  intros (Hnames & Hshape & Hdf & Hds & Htf & Hts & Hwn & Hwe & Hws).
  unfold scan_file.
  destruct (detect_encoding_returns w fname) as (encoding & conf & ->).
  eexists. split; [reflexivity |].
  unfold scanned, stat_count, stat_bytes, size_in, path_exists.
  cbn [dir_data dir_files dir_size total_files total_size
       width_name width_enc width_size basename_raw enc_raw stat_raw].
  rewrite !map_app, !max_list_with_snoc, !sum_list_with_snoc, Hnames.
  cbn [map basename_raw enc_raw stat_raw].
  unfold stat_count, stat_bytes, size_in, path_exists in Hdf, Hds.
  destruct show_stats, fixed_width, (os_stat w fname) as [file_size|];
    cbn [bool_decide decide_rel default from_option id]; split_and!;
    try done; try lia;
    try (apply Forall_app; split; [done | by repeat constructor]).
  all: try (rewrite bool_decide_eq_true_2 by by eexists); try lia.
  all: try (rewrite bool_decide_eq_false_2 by by intros [??]); try lia.
Qed.

Lemma scan_files_scanned w show_stats fixed_width files0 size0 l rest st :
  scanned w show_stats fixed_width files0 size0 l st →
  ∃ st', scan_files chardet_detect format_size ctime_of percent
                    w show_stats fixed_width rest st = inl st' ∧
         scanned w show_stats fixed_width files0 size0 (l ++ rest) st'.
Proof.
  revert l st. induction rest as [|fname rest IH]; intros l st Hst; cbn [scan_files].
  - exists st. by rewrite app_nil_r.
  - destruct (scan_file_scanned _ _ _ _ _ _ fname _ Hst) as (st1 & -> & Hst1).
    destruct (IH _ _ Hst1) as (st' & -> & Hst').
    exists st'. by rewrite <- app_assoc in Hst'.
Qed.

Lemma spaces_length n : String.length (spaces n) = n.
Proof. induction n as [|n IH]; cbn; [done | by rewrite IH]. Qed.

Lemma max_list_with_map {A B} (f : B → nat) (g : A → B) l :
  max_list_with f (map g l) = max_list_with (fun x => f (g x)) l.
Proof. induction l as [|x l IH]; cbn; [done | by rewrite IH]. Qed.

Lemma max_list_with_ext {A} (f g : A → nat) l :
  Forall (fun x => f x = g x) l → max_list_with f l = max_list_with g l.
Proof. induction 1 as [|x l Hx _ IH]; cbn; [done | by rewrite Hx, IH]. Qed.

Lemma max_list_with_bound {A} (f : A → nat) l x :
  x ∈ l → (f x ≤ max_list_with f l)%nat.
Proof. induction 1; cbn; lia. Qed.

Lemma lines_aligned w show_stats files0 size0 l st :
  scanned w show_stats true files0 size0 l st →
  aligned (map (line_of show_stats true st) (dir_data st)).
Proof.
  intros (_ & Hshape & _ & _ & _ & _ & Hwn & Hwe & Hws).
  unfold aligned. rewrite !max_list_with_map. cbn [line_of line_name line_enc].
  rewrite <- Hwn, <- Hwe.
  assert (max_list_with (fun d => size_text (line_of show_stats true st d)) (dir_data st)
          = width_size st) as ->.
  { rewrite Hws. apply max_list_with_ext.
    eapply Forall_impl; [exact Hshape |]. intros d Hd.
    unfold size_text, line_of. cbn [line_stats].
    destruct show_stats; [by destruct (stat_raw d) as [[[[??]?]|]|] |].
    by rewrite Hd. }
  apply Forall_forall. intros line (d & -> & Hd)%list_elem_of_fmap.
  unfold name_width, enc_width, size_width, line_of.
  cbn [line_name line_name_pad line_enc line_enc_pad line_stats].
  rewrite !spaces_length.
  pose proof (max_list_with_bound (fun d => String.length (basename_raw d)) _ _ Hd).
  pose proof (max_list_with_bound (fun d => String.length (enc_raw d)) _ _ Hd).
  pose proof (max_list_with_bound
                (fun d => match stat_raw d with
                          | Some (Some (_, size_raw, _)) => String.length size_raw
                          | _ => 0%nat
                          end) _ _ Hd) as Hs.
  cbv beta in *. rewrite <- Hwn, <- Hwe, <- Hws in *.
  split_and!; [lia | lia |].
  destruct show_stats; [|done]. destruct (stat_raw d) as [[[[??]?]|]|]; try done.
  rewrite spaces_length. lia.
Qed.

Lemma lines_unpadded show_stats st data :
  unpadded (map (line_of show_stats false st) data).
Proof.
  apply Forall_forall. intros line (d & -> & _)%list_elem_of_fmap.
  unfold line_of. cbn. destruct show_stats; [|done].
  by destruct (stat_raw d) as [[[[??]?]|]|].
Qed.

Lemma stat_count_zero w l : stat_count w l = 0%nat → stat_bytes w l = 0%nat.
Proof.
  unfold stat_count, stat_bytes, size_in, path_exists.
  induction l as [|f l IH]; cbn; [done |].
  destruct (os_stat w f) as [file_size|]; cbn [default from_option id].
  - rewrite bool_decide_eq_true_2 by by eexists. lia.
  - rewrite bool_decide_eq_false_2 by by intros [??]. intros H. by rewrite IH.
Qed.

(** The output of the loop over the directories, item by item. *)
Lemma list_dirs_spec w base_dir recursive show_stats fixed_width items files0 size0 :
  ∃ blocks,
    list_dirs chardet_detect format_size ctime_of percent
              w base_dir recursive show_stats fixed_width items files0 size0
    = inl (blocks,
           (files0 + if show_stats then stat_count w (concat (map snd items)) else 0)%nat,
           (size0 + if show_stats then stat_bytes w (concat (map snd items)) else 0)%nat) ∧
    Forall2 (fun item b =>
               block_dir b = item.1 ∧
               block_header b = recursive || negb (String.eqb base_dir item.1) ∧
               map line_name (block_lines b) = map OsPath.basename item.2 ∧
               block_subtotal b
               = (if show_stats && negb (Nat.eqb (stat_count w item.2) 0)
                  then Some (stat_count w item.2, stat_bytes w item.2) else None) ∧
               (if fixed_width then aligned (block_lines b)
                else unpadded (block_lines b)))
            items blocks.
Proof.
  revert files0 size0.
  induction items as [|[dir_path dir_file_list] rest IH]; intros files0 size0;
    cbn [list_dirs map snd concat].
  - exists []. split; [|constructor].
    unfold stat_count, stat_bytes. destruct show_stats; cbn; by rewrite !Nat.add_0_r.
  - destruct (scan_files_scanned w show_stats fixed_width files0 size0 []
                dir_file_list (ScanState [] 0 0 0 0 0 files0 size0))
      as (st & -> & Hst).
    { unfold scanned, stat_count, stat_bytes. cbn.
      destruct show_stats, fixed_width; split_and!; try done; lia. }
    cbn [app] in Hst.
    destruct (IH (total_files st) (total_size st)) as (blocks & -> & Hblocks).
    exists (DirBlock dir_path (recursive || negb (String.eqb base_dir dir_path))
                     (map (line_of show_stats fixed_width st) (dir_data st))
                     (if show_stats && negb (Nat.eqb (dir_files st) 0)
                      then Some (dir_files st, dir_size st) else None) :: blocks).
    split.
    + destruct Hst as (_ & _ & Hdf & Hds & Htf & Hts & _).
      rewrite Htf, Hts, Hdf, Hds. unfold stat_count, stat_bytes.
      rewrite !sum_list_with_app.
      destruct show_stats; (f_equal; f_equal; [f_equal |]; lia).
    + constructor; [|exact Hblocks]. cbn [block_dir block_header block_lines
                                           block_subtotal fst snd].
      split_and!; [done | done | | |].
      * destruct Hst as (Hnames & _). rewrite <- Hnames, map_map. done.
      * destruct Hst as (_ & _ & Hdf & Hds & _). rewrite Hdf, Hds.
        by destruct show_stats.
      * destruct fixed_width; [by eapply lines_aligned | apply lines_unpadded].
Qed.

Lemma concat_snd_perm (d d' : list (string * list string)) :
  d ≡ₚ d' → concat (map snd d) ≡ₚ concat (map snd d').
Proof.
  induction 1 as [|x d d' _ IH|x y d|d d' d'' _ IH1 _ IH2]; cbn [map concat].
  - done.
  - by rewrite IH.
  - rewrite !app_assoc. by rewrite (Permutation_app_comm x.2 y.2).
  - by rewrite IH1.
Qed.

(** The items that [list_dirs] is run on, for a non-empty list of files. *)
Lemma items_of_found found :
  let items := sorted_items (group_by_dir found []) in
  concat (map snd items) ≡ₚ found ∧ grouped items.
Proof.
  cbv zeta. split.
  - rewrite (concat_snd_perm _ _ (sorted_items_perm _)). apply group_by_dir_perm.
  - eapply grouped_perm; [symmetry; apply sorted_items_perm |].
    apply group_by_dir_grouped. split; [apply NoDup_nil_2 | constructor].
Qed.

(** X17: the listing never raises and loses no file.  Every file found is
    printed exactly once, by its base name, in the block of its directory
    (the directory part of its name, or "." when it has none); no directory
    has two blocks and no block is empty; a block has a header line in a
    recursive listing, and otherwise when its directory is not the
    directory asked for. *)
Theorem listing_shows_every_file_once
    w ext base_dir recursive show_stats fixed_width :
  let found := get_files w (OsPath.lstrip_by (Ascii.eqb ".") ext) base_dir recursive in
  ∃ result,
    show_files_info chardet_detect get_files format_size ctime_of percent
                    w ext base_dir recursive show_stats fixed_width = inl result ∧
    match result with
    | NoFilesListed => found = []
    | Listed blocks _ =>
      found ≠ [] ∧
      NoDup (map block_dir blocks) ∧
      ∃ groups,
        concat groups ≡ₚ found ∧
        Forall2 (fun g b =>
                   g ≠ [] ∧
                   Forall (fun f => listed_dir f = block_dir b) g ∧
                   map line_name (block_lines b) = map OsPath.basename g ∧
                   block_header b
                   = recursive || negb (String.eqb base_dir (block_dir b)))
                groups blocks
    end.
Proof.
  cbv zeta. unfold show_files_info.
  destruct (get_files w _ base_dir recursive) as [|f found] eqn:Hfound.
  { by exists NoFilesListed. }
  destruct (items_of_found (f :: found)) as [Hperm [Hnd Hall]].
  destruct (list_dirs_spec w base_dir recursive show_stats fixed_width
              (sorted_items (group_by_dir (f :: found) [])) 0 0)
    as (blocks & -> & Hblocks).
  eexists. split; [reflexivity |]. cbv beta iota.
  set (items := sorted_items (group_by_dir (f :: found) [])) in *. clearbody items.
  split_and!; [done | |].
  - assert (map block_dir blocks = map fst items) as ->; [|done].
    clear -Hblocks. induction Hblocks as [|item b items blocks (Hd & _) _ IH];
      [done |]. cbn [map]. by f_equal.
  - exists (map snd items). split; [done |].
    apply Forall2_fmap_l. clear -Hblocks Hall.
    induction Hblocks as [|item b items blocks (Hd & Hh & Hn & _) _ IH];
      [constructor |].
    apply Forall_cons in Hall as [[Hne Hdir] Hall].
    constructor; [|by apply IH]. unfold compose. rewrite Hd. done.
Qed.

(** X18: the columns of a listing.  With [--rem], in every block each
    line's name with its padding is as wide as the longest name of the
    block, the same holds for the encoding column, and every size is
    padded to the width of the longest size of the block; without [--rem]
    nothing is padded. *)
Theorem listing_columns_are_aligned
    w ext base_dir recursive show_stats fixed_width blocks grand_total :
  show_files_info chardet_detect get_files format_size ctime_of percent
                  w ext base_dir recursive show_stats fixed_width
  = inl (Listed blocks grand_total) →
  Forall (fun b => if fixed_width then aligned (block_lines b)
                   else unpadded (block_lines b))
         blocks.
Proof.
  unfold show_files_info.
  destruct (get_files w _ base_dir recursive) as [|f found]; [done |].
  destruct (list_dirs_spec w base_dir recursive show_stats fixed_width
              (sorted_items (group_by_dir (f :: found) [])) 0 0)
    as (blocks' & -> & Hblocks).
  intros [= <- _]. clear -Hblocks.
  induction Hblocks as [|item b items blocks' (_ & _ & _ & _ & Ha) _ IH];
    by constructor.
Qed.

(** X19: the totals of a listing with [--stat].  The grand total counts the
    names found for which [os.stat] succeeds, directories and files that
    cannot be read among them, and adds up the sizes it reports; it is
    printed when that count is not zero.  The subtotals of the blocks add up
    to the grand total.  Without [--stat] there is no total of either
    kind. *)
Theorem listing_totals_add_up
    w ext base_dir recursive show_stats fixed_width blocks grand_total :
  let found := get_files w (OsPath.lstrip_by (Ascii.eqb ".") ext) base_dir recursive in
  show_files_info chardet_detect get_files format_size ctime_of percent
                  w ext base_dir recursive show_stats fixed_width
  = inl (Listed blocks grand_total) →
  grand_total
  = (if show_stats && negb (Nat.eqb (stat_count w found) 0)
     then Some (stat_count w found, stat_bytes w found) else None) ∧
  (show_stats = true →
   sum_list_with (fun b => from_option fst 0%nat (block_subtotal b)) blocks
   = stat_count w found ∧
   sum_list_with (fun b => from_option snd 0%nat (block_subtotal b)) blocks
   = stat_bytes w found) ∧
  (show_stats = false → Forall (fun b => block_subtotal b = None) blocks).
Proof.
  cbv zeta. unfold show_files_info.
  destruct (get_files w _ base_dir recursive) as [|f found]; [done |].
  destruct (items_of_found (f :: found)) as [Hperm _].
  destruct (list_dirs_spec w base_dir recursive show_stats fixed_width
              (sorted_items (group_by_dir (f :: found) [])) 0 0)
    as (blocks' & -> & Hblocks).
  set (items := sorted_items (group_by_dir (f :: found) [])) in *. clearbody items.
  intros [= <- <-].
  assert (stat_count w (concat (map snd items)) = stat_count w (f :: found)) as Hc.
  { unfold stat_count. by rewrite Hperm. }
  assert (stat_bytes w (concat (map snd items)) = stat_bytes w (f :: found)) as Hb.
  { unfold stat_bytes. by rewrite Hperm. }
  rewrite <- Hc, <- Hb. clear Hc Hb Hperm. split_and!.
  - by destruct show_stats.
  - intros ->. clear -Hblocks.
    induction Hblocks as [|item b items blocks' (_ & _ & _ & Hs & _) _ [IH1 IH2]];
      [done |].
    cbn [sum_list_with map snd concat]. unfold stat_count, stat_bytes in *.
    rewrite !sum_list_with_app, IH1, IH2, Hs. cbn [andb].
    destruct (Nat.eqb_spec (sum_list_with (fun f => if path_exists w f then 1 else 0)%nat
                                          item.2) 0) as [Hz | Hz]; cbn [negb from_option].
    + pose proof (stat_count_zero w item.2 Hz) as Hzb. unfold stat_bytes in Hzb.
      rewrite Hz, Hzb. done.
    + done.
  - intros ->. clear -Hblocks.
    induction Hblocks as [|item b items blocks' (_ & _ & _ & Hs & _) _ IH];
      by constructor.
Qed.

End ListingFacts.

(** ** The further theorems at sample inputs *)

Lemma saved_output_sample :
  ∃ data,
    files (res_world (convert_encoding (detects None 0) (py_decode no_other) py_encode
                                       sample_dir "b.txt" "out" "utf16le"))
    = <["out"%string := data]> (files sample_dir).
Proof.
  destruct (saved_output_is_the_encoded_text (detects None 0) (py_decode no_other)
              py_encode sample_dir "b.txt" "out" "utf16le" eq_refl)
    as (raw & tr & t & codec & data & _ & _ & _ & _ & _ & Hf).
  by exists data.
Defined.

Lemma in_place_sample :
  files (res_world (convert_encoding (detects None 0) (py_decode no_other) py_encode
                                     (one_file "in" zajac_raw) "in" "in" "ISO8859_2"))
    !! "in"%string = Some [].
Proof.
  exact (proj2 (in_place_conversion (detects None 0) (py_decode no_other) py_encode
                  (one_file "in" zajac_raw) "in" "ISO8859_2" zajac_raw
                  [EvDecode "windows-1250"; EvPrint (MsgFallback "windows-1250")]
                  zajac_cp1250 eq_refl eq_refl ltac:(discriminate)
                  ltac:(apply not_elem_of_empty) eq_refl)).
Defined.

Lemma ascii_file_sample :
  files (res_world (convert_encoding (detects (Some "ascii"%string) 1)
                                     (py_decode no_other) py_encode
                                     sample_dir "b.txt" "out" "ansi"))
  = <["out"%string := [x41; x42]]> (files sample_dir).
Proof.
  destruct (ascii_file_conversions (detects (Some "ascii"%string) 1) no_other
              sample_dir "b.txt" "out" "ansi" [x41; x42])
    as (Hsame & _); [reflexivity | discriminate | | reflexivity | (refine (bool_decide_unpack _ _); vm_compute; exact I) |].
  - repeat apply Forall_cons_2; [reflexivity.. | apply Forall_nil_2].
  - apply Hsame. set_solver.
Defined.

Lemma legacy_pair_sample :
  decode_attempts
    (res_trace (convert_encoding (detects None 0) (py_decode no_other) py_encode
                                 (one_file "in" [x5a; x81]) "in" "out" "UTF8"))
  = ["windows-1250"; "iso8859_2"]%string.
Proof.
  destruct (legacy_pair_decides (detects None 0) no_other py_encode
              (one_file "in" [x5a; x81]) "in" "out" "UTF8" [x5a; x81])
    as (_ & _ & Hiso); [reflexivity | discriminate | reflexivity |].
  apply Hiso. apply Exists_cons_tl, Exists_cons_hd. set_solver.
Defined.

Lemma utf8_and_back_sample :
  let r1 := convert_encoding detects_utf8 (py_decode no_other) py_encode
                             (one_file "in" zajac_raw) "in" "mid" "utf8" in
  files (res_world (convert_encoding detects_utf8 (py_decode no_other) py_encode
                                     (res_world r1) "mid" "back" "ansi"))
    !! "back"%string = Some zajac_raw.
Proof.
  destruct (utf8_and_back_restores_bytes detects_utf8 no_other
              (one_file "in" zajac_raw) "in" "mid" "back" "utf8" "ansi" zajac_raw)
    as (_ & _ & Hback);
    [reflexivity | discriminate | | reflexivity | set_solver | reflexivity
     | (refine (bool_decide_unpack _ _); vm_compute; exact I) | (refine (bool_decide_unpack _ _); vm_compute; exact I) | | exact Hback].
  - repeat apply Forall_cons_2; try apply Forall_nil_2; unfold cp1250_undefined;
      set_solver.
  - intros data Hdata. vm_compute in Hdata. by injection Hdata as <-.
Defined.

Lemma batch_declined_sample :
  batch_world (process_all (detects None 0) (py_decode no_other) py_encode
                           (finds ["d/a.txt"%string]) (answers (Typed " N "))
                           sample_dir ".txt" "utf8" None "d" false false)
  = sample_dir.
Proof.
  destruct (batch_declined_changes_nothing (detects None 0) (py_decode no_other) py_encode
              (finds ["d/a.txt"%string]) (answers (Typed " N "))
              sample_dir ".txt" "utf8" None "d" false)
    as (Hw & _); [discriminate | | exact Hw].
  intros line [= <-]. reflexivity.
Defined.


Lemma explicit_output_sample :
  main_prompted (run_main (detects None 0) (py_decode no_other) py_encode
                          (finds []) (answers (Typed "n"))
                          sample_dir
                          (args_convert (Some "d/a_UTF8.txt"%string) (Some "utf8"%string)))
  = false.
Proof.
  destruct (explicit_output_is_never_asked_about
              (detects None 0) (py_decode no_other) py_encode
              (finds []) (answers (Typed "n")) sample_dir
              (args_convert (Some "d/a_UTF8.txt"%string) (Some "utf8"%string))
              "d/a.txt" "d/a_UTF8.txt" "utf8")
    as (Hp & _); [reflexivity | reflexivity | reflexivity | reflexivity | discriminate
                  | reflexivity | discriminate | reflexivity | by eexists | exact Hp].
Defined.

Lemma auto_named_sample :
  let m := run_main (detects None 0) (py_decode no_other) py_encode
                    (finds []) (answers (Typed "n"))
                    sample_dir (args_convert None (Some "utf16le"%string)) in
  new_name (upper "utf16le") "d/a.txt" = "d/a_UTF16LE.txt"%string ∧
  main_prompted m = true ∧
  main_runs m = [] ∧
  main_world m = sample_dir.
Proof.
  destruct (auto_named_conversion
              (detects None 0) (py_decode no_other) py_encode
              (finds []) (answers (Typed "n")) sample_dir
              (args_convert None (Some "utf16le"%string)) "d/a.txt" "utf16le")
    as (_ & Hp & _ & Hno); [reflexivity | reflexivity | reflexivity | reflexivity
                            | discriminate | reflexivity | reflexivity | by eexists |].
  destruct (Hno Hp) as [Hruns Hworld].
  split_and!; [reflexivity | exact Hp | exact Hruns | exact Hworld].
Defined.

Lemma no_format_sample :
  main_world (run_main (detects None 0) (py_decode no_other) py_encode
                       (finds []) (answers (Typed "y"))
                       sample_dir
                       (args_convert (Some "out.txt"%string) (Some "FOO"%string)))
  = sample_dir.
Proof.
  exact (proj1 (no_conversion_without_format
                  (detects None 0) (py_decode no_other) py_encode
                  (finds []) (answers (Typed "y")) sample_dir
                  (args_convert (Some "out.txt"%string) (Some "FOO"%string))
                  (or_intror (or_intror (conj eq_refl eq_refl))))).
Defined.

Lemma listing_aligned_sample :
  ∃ blocks grand_total,
    show_files_info (detects None 0) (finds ["d/a.txt"; "b.txt"; "d/a_UTF8.txt"]%string)
                    plain_size plain_ctime plain_percent
                    sample_dir "txt" "." true true true
    = inl (Listed blocks grand_total) ∧
    Forall (fun b => aligned (block_lines b)) blocks.
Proof.
  do 2 eexists. split; [vm_compute; reflexivity |].
  refine (listing_columns_are_aligned (detects None 0)
            (finds ["d/a.txt"; "b.txt"; "d/a_UTF8.txt"]%string)
            plain_size plain_ctime plain_percent
            sample_dir "txt" "." true true true _ _ _).
  vm_compute; reflexivity.
Defined.

Lemma listing_totals_sample :
  ∃ blocks grand_total,
    show_files_info (detects None 0)
                    (finds ["d/a.txt"; "b.txt"; "d/old.txt"; "d/none.txt"]%string)
                    plain_size plain_ctime plain_percent
                    sample_dir "txt" "." true true false
    = inl (Listed blocks grand_total) ∧
    grand_total = Some (3, 4103)%nat ∧
    sum_list_with (fun b => from_option snd 0%nat (block_subtotal b)) blocks = 4103%nat.
Proof.
  do 2 eexists. split; [vm_compute; reflexivity |].
  refine (let H := listing_totals_add_up (detects None 0)
                     (finds ["d/a.txt"; "b.txt"; "d/old.txt"; "d/none.txt"]%string)
                     plain_size plain_ctime plain_percent
                     sample_dir "txt" "." true true false _ _ _ in
          conj (proj1 H) (proj2 (proj1 (proj2 H) eq_refl))).
  vm_compute; reflexivity.
Defined.
